(** * realtime_imu.py: buffer governance and latest-sample selection

    A shallow embedding of the [RealTimeIMU] class of [src/realtime_imu.py]
    (serial read path, buffer clearing, freshness display, mode switching)
    and the properties of its specification that can be settled on it.

    Conventions of the embedding:
    - Python floats (angles, wall-clock times, timeouts) are rationals [Q]
      with exact arithmetic; the thresholds 0.5, 2, 0.05 and 0.001 are the
      decimal constants of the source.
    - The object [self] is the record [RealTimeIMU]; a method is a
      computation in the monad [M], which threads the object and carries
      Python exceptions.  State written before an exception is raised
      stays written, as in Python.
    - The serial device (pyserial) is an external collaborator; it is the
      record [Serial] with the four operations the program calls.
    - [print] appends a [message] to the [stdout] field. *)

From Stdlib Require Import QArith Lqa ZArith NArith Lia Bool List.
From Stdlib Require Import Strings.String Strings.Ascii Strings.Byte.
Import ListNotations.

Local Open Scope Q_scope.

(** ** Rational comparison as the program's float comparison *)

Definition Qltb (x y : Q) : bool :=
  (Qnum x * QDen y <? Qnum y * QDen x)%Z.

(** ** Python text primitives used by the read path *)

Module PyText.

Definition LF : byte := x0a.

(** [bytes.decode('utf-8')]: the well-formed byte sequences of UTF-8
    (no overlong forms, no surrogates, nothing above U+10FFFF).  The
    decoded text is kept as its UTF-8 bytes in a [string]. *)
Definition cont (b : byte) : bool :=
  (128 <=? Byte.to_N b)%N && (Byte.to_N b <=? 191)%N.

Definition between (lo hi : N) (b : byte) : bool :=
  (lo <=? Byte.to_N b)%N && (Byte.to_N b <=? hi)%N.

Fixpoint utf8_valid (bs : list byte) : bool :=
  match bs with
  | [] => true
  | b0 :: r =>
      if between 0 127 b0 then utf8_valid r
      else if between 194 223 b0 then
        match r with
        | b1 :: r1 => cont b1 && utf8_valid r1
        | _ => false
        end
      else if between 224 239 b0 then
        match r with
        | b1 :: b2 :: r2 =>
            (if between 224 224 b0 then between 160 191 b1
             else if between 237 237 b0 then between 128 159 b1
             else cont b1)
            && cont b2 && utf8_valid r2
        | _ => false
        end
      else if between 240 244 b0 then
        match r with
        | b1 :: b2 :: b3 :: r3 =>
            (if between 240 240 b0 then between 144 191 b1
             else if between 244 244 b0 then between 128 143 b1
             else cont b1)
            && cont b2 && cont b3 && utf8_valid r3
        | _ => false
        end
      else false
  end.

Definition decode (bs : list byte) : option string :=
  if utf8_valid bs then Some (string_of_list_byte bs) else None.

(** [str.strip()] with no argument strips the characters Python counts
    as whitespace: U+0009-000D, U+001C-001F, U+0020, U+0085, U+00A0,
    U+1680, U+2000-200A, U+2028, U+2029, U+202F, U+205F and U+3000.  The
    text is held as its UTF-8 bytes, so the characters above U+007F are
    recognised by their encodings, two or three bytes long; in
    well-formed UTF-8 these byte sequences occur only as those
    characters. *)
Definition is_space (a : ascii) : bool :=
  let n := nat_of_ascii a in
  ((9 <=? n) && (n <=? 13))%nat || ((28 <=? n) && (n <=? 32))%nat.

(** U+0085 (C2 85) and U+00A0 (C2 A0). *)
Definition is_space2 (a b : ascii) : bool :=
  let x := nat_of_ascii a in
  let y := nat_of_ascii b in
  ((x =? 194) && ((y =? 133) || (y =? 160)))%nat.

(** U+1680 (E1 9A 80), U+2000-200A (E2 80 80 .. E2 80 8A), U+2028,
    U+2029, U+202F (E2 80 A8, A9, AF), U+205F (E2 81 9F) and U+3000
    (E3 80 80). *)
Definition is_space3 (a b c : ascii) : bool :=
  let x := nat_of_ascii a in
  let y := nat_of_ascii b in
  let z := nat_of_ascii c in
  (((x =? 225) && (y =? 154) && (z =? 128))
   || ((x =? 226) && (y =? 128)
       && (((128 <=? z) && (z <=? 138)) || (z =? 168) || (z =? 169) || (z =? 175)))
   || ((x =? 226) && (y =? 129) && (z =? 159))
   || ((x =? 227) && (y =? 128) && (z =? 128)))%nat.

Fixpoint lstrip (s : string) : string :=
  match s with
  | EmptyString => EmptyString
  | String a r =>
      if is_space a then lstrip r
      else
        match r with
        | String b r1 =>
            if is_space2 a b then lstrip r1
            else
              match r1 with
              | String c r2 => if is_space3 a b c then lstrip r2 else s
              | EmptyString => s
              end
        | EmptyString => s
        end
  end.

Fixpoint rev_onto (s acc : string) : string :=
  match s with
  | EmptyString => acc
  | String a r => rev_onto r (String a acc)
  end.

Definition reversed (s : string) : string := rev_onto s EmptyString.

(** [lstrip] on a text given last byte first. *)
Fixpoint lstrip_reversed (s : string) : string :=
  match s with
  | EmptyString => EmptyString
  | String a r =>
      if is_space a then lstrip_reversed r
      else
        match r with
        | String b r1 =>
            if is_space2 b a then lstrip_reversed r1
            else
              match r1 with
              | String c r2 => if is_space3 c b a then lstrip_reversed r2 else s
              | EmptyString => s
              end
        | EmptyString => s
        end
  end.

Definition rstrip (s : string) : string :=
  reversed (lstrip_reversed (reversed s)).

Definition strip (s : string) : string := rstrip (lstrip s).

(** Truthiness of a [str]: non-empty. *)
Definition truthy (s : string) : bool :=
  match s with EmptyString => false | _ => true end.

(** [str.split(sep)] for a one-character separator. *)
Fixpoint split (sep : ascii) (s : string) : list string :=
  match s with
  | EmptyString => [EmptyString]
  | String a r =>
      if Ascii.eqb a sep then EmptyString :: split sep r
      else match split sep r with
           | h :: t => String a h :: t
           | [] => [String a EmptyString]
           end
  end.

(** [str.lower()] on the ASCII letters. *)
Definition lower_ascii (a : ascii) : ascii :=
  let n := nat_of_ascii a in
  if ((65 <=? n) && (n <=? 90))%nat then ascii_of_nat (n + 32) else a.

Fixpoint lower (s : string) : string :=
  match s with
  | EmptyString => EmptyString
  | String a r => String (lower_ascii a) (lower r)
  end.

End PyText.

(** ** Exceptions and the serial device *)

Inductive exn : Type :=
| SerialException
| UnicodeDecodeError
| ValueError
| AttributeError.

(** The pyserial port as the program sees it.
    - [in_buffer]: bytes received and not yet read;
    - [in_flight]: bytes that land in the input buffer while a reset
      request is carried out (a reset that is asynchronous or advisory
      leaves them pending);
    - [timeout]: the read timeout attribute;
    - [healthy_calls]: how many more I/O calls succeed before the link
      fails ([None]: it never fails).  A failed link raises
      [SerialException] on every I/O call. *)
Record Serial : Type := mkSerial {
  in_buffer : list byte;
  in_flight : list byte;
  timeout : Q;
  healthy_calls : option nat
}.

Module Port.

Definition io {A} (p : Serial) (k : Serial -> A * Serial)
  : (exn + A) * Serial :=
  match healthy_calls p with
  | Some O => (inl SerialException, p)
  | Some (S n) =>
      let (a, p') := k (mkSerial (in_buffer p) (in_flight p) (timeout p) (Some n)) in
      (inr a, p')
  | None => let (a, p') := k p in (inr a, p')
  end.

(** [Serial.in_waiting]: number of bytes in the input buffer. *)
Definition in_waiting (p : Serial) : (exn + nat) * Serial :=
  io p (fun p => (List.length (in_buffer p), p)).

(** One line off the front of a byte sequence: up to and including the
    first LF, or everything when there is none (the read times out). *)
Fixpoint take_line (bs : list byte) : list byte * list byte :=
  match bs with
  | [] => ([], [])
  | b :: r =>
      if Byte.eqb b PyText.LF then ([b], r)
      else let (l, r') := take_line r in (b :: l, r')
  end.

(** [Serial.readline()]. *)
Definition readline (p : Serial) : (exn + list byte) * Serial :=
  io p (fun p =>
    let (l, r) := take_line (in_buffer p) in
    (l, mkSerial r (in_flight p) (timeout p) (healthy_calls p))).

(** [Serial.reset_input_buffer()]. *)
Definition reset_input_buffer (p : Serial) : (exn + unit) * Serial :=
  io p (fun p =>
    (tt, mkSerial (in_flight p) [] (timeout p) (healthy_calls p))).

Definition set_timeout (t : Q) (p : Serial) : Serial :=
  mkSerial (in_buffer p) (in_flight p) t (healthy_calls p).

End Port.

(** ** The object and its methods' monad *)

(** What the program prints, with the values interpolated in the text. *)
Inductive message : Type :=
| MsgNoPyserial                       (* "pyserial not available" *)
| MsgConnecting                       (* "Connecting to COM6..." *)
| MsgConnected                        (* "Connected to COM6" and the line after *)
| MsgConnectionFailed (e : exn)       (* "Serial connection failed: e" *)
| MsgDiscarded (discarded_count : nat)        (* "Discarded n old data packets" *)
| MsgBufferClearError (e : exn)       (* "Buffer clear error: e" *)
| MsgBufferSize (in_waiting : nat)    (* "Buffer size: n - clearing old data" *)
| MsgSkipped (packets_discarded : nat)        (* "Skipped n old packets - using latest" *)
| MsgRealtimeData (data_count : nat) (x y z : Q)
| MsgParseError (latest_data : string)        (* "Parse error: ..." *)
| MsgSerialReadError (e : exn)        (* "Serial read error: e" *)
| MsgResetOrientation                 (* "Reset orientation" *)
| MsgDemoMode (on : bool)             (* "Demo mode: ON/OFF" *)
| MsgManualClear.                     (* "Manual buffer clear" *)

Record RealTimeIMU : Type := mkIMU {
  rotX : Q;
  rotY : Q;
  rotZ : Q;
  demo_mode : bool;
  demo_time : Q;
  serial_port : option Serial;
  serial_connected : bool;
  buffer_clear_interval : Q;
  last_buffer_clear : Q;
  max_buffer_size : nat;
  data_count : nat;
  last_data_time : Q;
  stdout : list message
}.

Definition set_rotX (v : Q) (s : RealTimeIMU) : RealTimeIMU :=
  mkIMU v (rotY s) (rotZ s) (demo_mode s) (demo_time s) (serial_port s)
        (serial_connected s) (buffer_clear_interval s) (last_buffer_clear s)
        (max_buffer_size s) (data_count s) (last_data_time s) (stdout s).

Definition set_rotY (v : Q) (s : RealTimeIMU) : RealTimeIMU :=
  mkIMU (rotX s) v (rotZ s) (demo_mode s) (demo_time s) (serial_port s)
        (serial_connected s) (buffer_clear_interval s) (last_buffer_clear s)
        (max_buffer_size s) (data_count s) (last_data_time s) (stdout s).

Definition set_rotZ (v : Q) (s : RealTimeIMU) : RealTimeIMU :=
  mkIMU (rotX s) (rotY s) v (demo_mode s) (demo_time s) (serial_port s)
        (serial_connected s) (buffer_clear_interval s) (last_buffer_clear s)
        (max_buffer_size s) (data_count s) (last_data_time s) (stdout s).

Definition set_demo_mode (v : bool) (s : RealTimeIMU) : RealTimeIMU :=
  mkIMU (rotX s) (rotY s) (rotZ s) v (demo_time s) (serial_port s)
        (serial_connected s) (buffer_clear_interval s) (last_buffer_clear s)
        (max_buffer_size s) (data_count s) (last_data_time s) (stdout s).

Definition set_demo_time (v : Q) (s : RealTimeIMU) : RealTimeIMU :=
  mkIMU (rotX s) (rotY s) (rotZ s) (demo_mode s) v (serial_port s)
        (serial_connected s) (buffer_clear_interval s) (last_buffer_clear s)
        (max_buffer_size s) (data_count s) (last_data_time s) (stdout s).

Definition set_serial_port (v : option Serial) (s : RealTimeIMU) : RealTimeIMU :=
  mkIMU (rotX s) (rotY s) (rotZ s) (demo_mode s) (demo_time s) v
        (serial_connected s) (buffer_clear_interval s) (last_buffer_clear s)
        (max_buffer_size s) (data_count s) (last_data_time s) (stdout s).

Definition set_serial_connected (v : bool) (s : RealTimeIMU) : RealTimeIMU :=
  mkIMU (rotX s) (rotY s) (rotZ s) (demo_mode s) (demo_time s) (serial_port s)
        v (buffer_clear_interval s) (last_buffer_clear s)
        (max_buffer_size s) (data_count s) (last_data_time s) (stdout s).

Definition set_last_buffer_clear (v : Q) (s : RealTimeIMU) : RealTimeIMU :=
  mkIMU (rotX s) (rotY s) (rotZ s) (demo_mode s) (demo_time s) (serial_port s)
        (serial_connected s) (buffer_clear_interval s) v
        (max_buffer_size s) (data_count s) (last_data_time s) (stdout s).

Definition set_data_count (v : nat) (s : RealTimeIMU) : RealTimeIMU :=
  mkIMU (rotX s) (rotY s) (rotZ s) (demo_mode s) (demo_time s) (serial_port s)
        (serial_connected s) (buffer_clear_interval s) (last_buffer_clear s)
        (max_buffer_size s) v (last_data_time s) (stdout s).

Definition set_last_data_time (v : Q) (s : RealTimeIMU) : RealTimeIMU :=
  mkIMU (rotX s) (rotY s) (rotZ s) (demo_mode s) (demo_time s) (serial_port s)
        (serial_connected s) (buffer_clear_interval s) (last_buffer_clear s)
        (max_buffer_size s) (data_count s) v (stdout s).

Definition set_stdout (v : list message) (s : RealTimeIMU) : RealTimeIMU :=
  mkIMU (rotX s) (rotY s) (rotZ s) (demo_mode s) (demo_time s) (serial_port s)
        (serial_connected s) (buffer_clear_interval s) (last_buffer_clear s)
        (max_buffer_size s) (data_count s) (last_data_time s) v.

(** How a call ends: a value, a raised exception, or the fuel of a
    [while] loop exhausted (shown below never to happen). *)
Inductive outcome (A : Type) : Type :=
| Ret (a : A)
| Raise (e : exn)
| OutOfFuel.

Arguments Ret {A} a.
Arguments Raise {A} e.
Arguments OutOfFuel {A}.

Definition M (A : Type) : Type := RealTimeIMU -> outcome A * RealTimeIMU.

Definition ret {A} (a : A) : M A := fun s => (Ret a, s).

Definition bind {A B} (m : M A) (k : A -> M B) : M B :=
  fun s =>
    match m s with
    | (Ret a, s') => k a s'
    | (Raise e, s') => (Raise e, s')
    | (OutOfFuel, s') => (OutOfFuel, s')
    end.

Definition raise {A} (e : exn) : M A := fun s => (Raise e, s).

(** [try: m except <catches>: handler]. *)
Definition try_except {A} (m : M A) (catches : exn -> bool) (handler : exn -> M A) : M A :=
  fun s =>
    match m s with
    | (Raise e, s') => if catches e then handler e s' else (Raise e, s')
    | r => r
    end.

Definition any_exception (_ : exn) : bool := true.

Definition is_ValueError (e : exn) : bool :=
  match e with ValueError => true | _ => false end.

Definition gets {A} (f : RealTimeIMU -> A) : M A := fun s => (Ret (f s), s).

Definition modify (f : RealTimeIMU -> RealTimeIMU) : M unit := fun s => (Ret tt, f s).

Definition print (m : message) : M unit :=
  modify (fun s => set_stdout (stdout s ++ [m]) s).

Definition when (b : bool) (m : M unit) : M unit := if b then m else ret tt.

Declare Scope imu_scope.
Delimit Scope imu_scope with imu.
Notation "x <- m ;; k" := (bind m (fun x => k))
  (at level 61, m at next level, right associativity) : imu_scope.
Notation "m ;; k" := (bind m (fun _ => k))
  (at level 61, right associativity) : imu_scope.
Local Open Scope imu_scope.

(** A call on [self.serial_port]; on [None] Python raises
    [AttributeError]. *)
Definition on_port {A} (op : Serial -> (exn + A) * Serial) : M A :=
  fun s =>
    match serial_port s with
    | None => (Raise AttributeError, s)
    | Some p =>
        match op p with
        | (inl e, p') => (Raise e, set_serial_port (Some p') s)
        | (inr a, p') => (Ret a, set_serial_port (Some p') s)
        end
    end.

Definition port_in_waiting : M nat := on_port Port.in_waiting.
Definition port_readline : M (list byte) := on_port Port.readline.
Definition port_reset_input_buffer : M unit := on_port Port.reset_input_buffer.
Definition port_get_timeout : M Q := on_port (fun p => (inr (timeout p), p)).
Definition port_set_timeout (t : Q) : M unit :=
  on_port (fun p => (inr tt, Port.set_timeout t p)).

(** The fuel given to a drain loop: every iteration that reads consumes
    at least one pending byte. *)
Definition pending_fuel : M nat :=
  gets (fun s => match serial_port s with
                 | Some p => S (List.length (in_buffer p))
                 | None => 1%nat
                 end).

(** ** Functions of the Python runtime taken as given *)

(** [float(str)] -- [None] stands for [ValueError] -- and numpy's [sin]
    and [cos] on floats. *)
Class PyRuntime : Type := {
  py_float : string -> option Q;
  np_sin : Q -> Q;
  np_cos : Q -> Q
}.

(** ** The methods of [RealTimeIMU] *)

Inductive Freshness : Type := LIVE | STALE | OLD.

(** The title line of the plot: the live title carries the freshness
    marker, the demo title does not. *)
Inductive title : Type :=
| RealTimeTitle (roll pitch yaw : Q) (freshness : Freshness)
| DemoTitle (roll pitch yaw : Q).

Inductive status_panel : Type := SerialConnected | DemoModePanel | NoConnection.

(** What one frame shows of the state (the cube itself is left out). *)
Record frame : Type := mkFrame {
  frame_title : title;
  frame_buffer_size : nat;
  frame_status : status_panel
}.

Section Methods.

Context {runtime : PyRuntime}.

(** [__init__], the fields before [init_serial] runs. *)
Definition initial : RealTimeIMU :=
  mkIMU 0 0 0 false 0 None false 0.05 0 100 0 0 [].

(** [clear_serial_buffer], the [while] loop of lines 119-123. *)
Fixpoint clear_loop (fuel : nat) (discarded_count : nat) : M nat :=
  n <- port_in_waiting ;;
  if (0 <? n)%nat then
    match fuel with
    | O => fun s => (OutOfFuel, s)
    | S fuel' =>
        port_readline ;;
        let discarded_count := S discarded_count in
        if (50 <? discarded_count)%nat then ret discarded_count
        else clear_loop fuel' discarded_count
    end
  else ret discarded_count.

(** The body of the [try] of [clear_serial_buffer], lines 111-128. *)
Definition clear_attempt : M unit :=
  port_reset_input_buffer ;;
  old_timeout <- port_get_timeout ;;
  port_set_timeout 0.001 ;;
  fuel <- pending_fuel ;;
  discarded_count <- clear_loop fuel 0 ;;
  port_set_timeout old_timeout ;;
  when (0 <? discarded_count)%nat (print (MsgDiscarded discarded_count)).

Definition clear_serial_buffer : M unit :=
  port <- gets serial_port ;;
  match port with
  | None => ret tt
  | Some _ =>
      try_except clear_attempt any_exception
        (fun e => print (MsgBufferClearError e))
  end.

(** [init_serial]; [serial_available] is the module flag
    [SERIAL_AVAILABLE] and [opened] what [serial.Serial(...)] does:
    the open port, or the exception it raises. *)
Definition init_serial (serial_available : bool) (opened : exn + Serial) : M unit :=
  if negb serial_available then
    print MsgNoPyserial ;;
    modify (set_demo_mode true)
  else
    try_except
      (print MsgConnecting ;;
       match opened with
       | inl e => raise e
       | inr p =>
           modify (set_serial_port (Some p)) ;;
           clear_serial_buffer ;;
           modify (set_serial_connected true) ;;
           print MsgConnected
       end)
      any_exception
      (fun e =>
         print (MsgConnectionFailed e) ;;
         modify (set_serial_connected false) ;;
         modify (set_demo_mode true)).

(** [read_latest_serial_data], STEP 1 (lines 142-148): the periodic
    buffer check. *)
Definition governance_due (current_time : Q) (s : RealTimeIMU) : bool :=
  Qltb (buffer_clear_interval s) (current_time - last_buffer_clear s).

Definition govern (current_time : Q) : M unit :=
  due <- gets (governance_due current_time) ;;
  when due
    (n <- port_in_waiting ;;
     limit <- gets max_buffer_size ;;
     when (limit <? n)%nat
       (n' <- port_in_waiting ;;
        print (MsgBufferSize n') ;;
        clear_serial_buffer) ;;
     modify (set_last_buffer_clear current_time)).

(** STEP 2 (lines 151-163): the drain loop that keeps the last
    non-empty line.  The body of the inner [try]: *)
Definition read_stripped_line : M string :=
  raw <- port_readline ;;
  match PyText.decode raw with
  | Some text => ret (PyText.strip text)
  | None => raise UnicodeDecodeError
  end.

Fixpoint drain_latest (fuel : nat) (latest_data : option string)
         (packets_discarded : nat) : M (option string * nat) :=
  n <- port_in_waiting ;;
  if (0 <? n)%nat then
    match fuel with
    | O => fun s => (OutOfFuel, s)
    | S fuel' =>
        r <- try_except
               (line <- read_stripped_line ;; ret (Some line))
               any_exception
               (fun _ => ret None) ;;
        match r with
        | None => ret (latest_data, packets_discarded)          (* break *)
        | Some line =>
            if PyText.truthy line then
              drain_latest fuel' (Some line)
                (match latest_data with
                 | Some _ => S packets_discarded
                 | None => packets_discarded
                 end)
            else drain_latest fuel' latest_data packets_discarded
        end
    end
  else ret (latest_data, packets_discarded).

Definition select_latest : M (option string * nat) :=
  fuel <- pending_fuel ;;
  drain_latest fuel None 0.

(** [float(values[i])]. *)
Definition float_field (values : list string) (i : nat) : M Q :=
  match py_float (nth i values EmptyString) with
  | Some v => ret v
  | None => raise ValueError
  end.

(** STEP 3 (lines 166-190): the latest line is split and assigned. *)
Definition process_latest (current_time : Q) (latest_data : option string)
           (packets_discarded : nat) : M bool :=
  match latest_data with
  | Some latest =>
      if PyText.truthy latest then
        when (0 <? packets_discarded)%nat (print (MsgSkipped packets_discarded)) ;;
        let values := PyText.split "," latest in
        if (3 <=? List.length values)%nat then
          try_except
            (v0 <- float_field values 0 ;;
             modify (set_rotY v0) ;;
             v1 <- float_field values 1 ;;
             modify (set_rotX v1) ;;
             v2 <- float_field values 2 ;;
             modify (set_rotZ v2) ;;
             modify (fun s => set_data_count (data_count s + 1) s) ;;
             modify (set_last_data_time current_time) ;;
             count <- gets data_count ;;
             when (count mod 50 =? 0)%nat
               (s <- gets (fun s => s) ;;
                print (MsgRealtimeData count (rotX s) (rotY s) (rotZ s))) ;;
             ret true)
            is_ValueError
            (fun _ => print (MsgParseError latest) ;; ret false)
        else ret false
      else ret false
  | None => ret false
  end.

Definition read_latest_serial_data (current_time : Q) : M bool :=
  connected <- gets serial_connected ;;
  port <- gets serial_port ;;
  match connected, port with
  | true, Some _ =>
      try_except
        (govern current_time ;;
         latest <- select_latest ;;
         process_latest current_time (fst latest) (snd latest))
        any_exception
        (fun e => print (MsgSerialReadError e) ;; ret false)
  | _, _ => ret false
  end.

(** [update_demo]. *)
Definition update_demo : M unit :=
  modify (fun s => set_demo_time (demo_time s + 0.02) s) ;;
  modify (fun s => set_rotX (45 * np_sin (demo_time s)) s) ;;
  modify (fun s => set_rotY (30 * np_cos (demo_time s * 0.7)) s) ;;
  modify (fun s => set_rotZ (60 * np_sin (demo_time s * 0.3)) s).

(** [draw_realtime_cube], lines 274-286: the freshness marker of the
    title and the buffer size of the status line.  [now] is the value
    of [time.time()] at line 275. *)
Definition data_age (now : Q) (s : RealTimeIMU) : Q :=
  if Qltb 0 (last_data_time s) then now - last_data_time s else 0.

Definition freshness_of_age (age : Q) : Freshness :=
  if Qltb age 0.5 then LIVE else if Qltb age 2 then STALE else OLD.

Definition freshness (now : Q) (s : RealTimeIMU) : Freshness :=
  freshness_of_age (data_age now s).

Definition live (s : RealTimeIMU) : bool :=
  serial_connected s && negb (demo_mode s).

Definition buffer_size : M nat :=
  port <- gets serial_port ;;
  match port with
  | Some _ => port_in_waiting
  | None => ret 0%nat
  end.

Definition draw_realtime_cube (now : Q) : M (title * nat) :=
  s <- gets (fun s => s) ;;
  let t := if live s
           then RealTimeTitle (rotX s) (rotY s) (rotZ s) (freshness now s)
           else DemoTitle (rotX s) (rotY s) (rotZ s) in
  n <- buffer_size ;;
  ret (t, n).

(** [draw_ui_panels]: the status panel and the second buffer read. *)
Definition draw_ui_panels : M status_panel :=
  s <- gets (fun s => s) ;;
  let panel := if live s then SerialConnected
               else if demo_mode s then DemoModePanel else NoConnection in
  buffer_size ;;
  ret panel.

(** [update_plot]; [current_time] and [now] are the two clock readings
    of the tick (line 139 and line 275). *)
Definition update_rotations (current_time : Q) : M unit :=
  is_live <- gets live ;;
  if is_live then read_latest_serial_data current_time ;; ret tt
  else update_demo.

Definition update_plot (current_time now : Q) : M frame :=
  update_rotations current_time ;;
  tn <- draw_realtime_cube now ;;
  panel <- draw_ui_panels ;;
  ret (mkFrame (fst tn) (snd tn) panel).

(** [on_key_press]; [key] is [event.key]. *)
Definition on_key_press (key : option string) : M unit :=
  match key with
  | None => ret tt
  | Some k =>
      if negb (PyText.truthy k) then ret tt
      else
        let key := PyText.lower k in
        if String.eqb key "r" then
          modify (set_rotX 0) ;; modify (set_rotY 0) ;; modify (set_rotZ 0) ;;
          print MsgResetOrientation
        else if String.eqb key "d" then
          modify (fun s => set_demo_mode (negb (demo_mode s)) s) ;;
          on <- gets demo_mode ;;
          print (MsgDemoMode on)
        else if String.eqb key "b" then
          port <- gets serial_port ;;
          match port with
          | Some _ => clear_serial_buffer ;; print MsgManualClear
          | None => ret tt
          end
        else ret tt                      (* 'escape' closes the figures *)
  end.

(** The callbacks the GUI loop fires: the animation timer and the
    keyboard.  An exception leaving a callback does not undo what the
    callback wrote. *)
Inductive event : Type :=
| Tick (current_time now : Q)
| KeyPress (key : option string).

Definition handle (ev : event) (s : RealTimeIMU) : RealTimeIMU :=
  match ev with
  | Tick current_time now => snd (update_plot current_time now s)
  | KeyPress key => snd (on_key_press key s)
  end.

Definition run (evs : list event) (s : RealTimeIMU) : RealTimeIMU :=
  fold_left (fun s ev => handle ev s) evs s.

End Methods.

(** ** A runtime to run the model on concrete inputs *)

Module Decimal.

Definition digit_of (a : ascii) : option Z :=
  let n := nat_of_ascii a in
  if ((48 <=? n) && (n <=? 57))%nat then Some (Z.of_nat (n - 48)) else None.

(** Leading decimal digits of [s] accumulated onto [acc]: the value,
    how many digits were read, and the rest of the text. *)
Fixpoint digits (s : string) (acc : Z) (count : nat) : Z * nat * string :=
  match s with
  | EmptyString => (acc, count, s)
  | String a r =>
      match digit_of a with
      | Some d => digits r (10 * acc + d)%Z (S count)
      | None => (acc, count, s)
      end
  end.

(** [float(s)] on plain decimal literals: optional surrounding
    whitespace, an optional sign, digits with an optional fractional
    part.  Everything else is [None]; exponents, underscores, [inf]
    and [nan], which Python also accepts, are outside this reading. *)
Definition float (s : string) : option Q :=
  let s := PyText.strip s in
  let '(negative, s) :=
    match s with
    | String "-" r => (true, r)
    | String "+" r => (false, r)
    | _ => (false, s)
    end in
  let '(int_part, int_digits, s1) := digits s 0%Z 0%nat in
  let '(num, frac_digits, rest) :=
    match s1 with
    | String "." r => digits r int_part 0%nat
    | _ => (int_part, 0%nat, s1)
    end in
  if ((int_digits + frac_digits =? 0)%nat || PyText.truthy rest)%bool then None
  else Some (Qred ((if negative then - num else num)%Z
                   # Z.to_pos (10 ^ Z.of_nat frac_digits))).

(** Taylor polynomials around 0 in place of numpy's [sin] and [cos]. *)
Definition sin (x : Q) : Q := Qred (x - x * x * x / 6 + x * x * x * x * x / 120).
Definition cos (x : Q) : Q := Qred (1 - x * x / 2 + x * x * x * x / 24).

Definition runtime : PyRuntime :=
  {| py_float := float; np_sin := sin; np_cos := cos |}.

End Decimal.

(** Bytes of a text followed by a line feed, as the device sends a line. *)
Definition wire_line (s : string) : list byte :=
  list_byte_of_string s ++ [PyText.LF].

Definition healthy_port (buffer : list byte) : Serial :=
  mkSerial buffer [] 0.01 None.

(** A connected object in live mode, reading from [p]. *)
Definition connected_to (p : Serial) : RealTimeIMU :=
  set_serial_connected true (set_serial_port (Some p) initial).

(** ** Vocabulary of the properties *)

Local Open Scope string_scope.
Local Open Scope list_scope.

(** Whether the object holds a port; no I/O call creates or drops it. *)
Definition has_port (s : RealTimeIMU) : bool :=
  match serial_port s with Some _ => true | None => false end.

(** The bytes pending in the input buffer. *)
Definition pending (s : RealTimeIMU) : nat :=
  match serial_port s with
  | Some p => List.length (in_buffer p)
  | None => 0
  end.

(** The three angles (roll, pitch, yaw). *)
Definition orientation (s : RealTimeIMU) : Q * Q * Q := (rotX s, rotY s, rotZ s).

(** STEP 1 and STEP 2 of [read_latest_serial_data]: what the read
    obtains before anything is parsed. *)
Definition read_path (t : Q) : M (option string * nat) :=
  bind (govern t) (fun _ => select_latest).

(** The text the loop obtains from a line of the wire: its bytes and the
    line feed, decoded and stripped. *)
Definition line_text (body : list byte) : string :=
  PyText.strip (string_of_list_byte (body ++ [PyText.LF])).

(** The lines that count: those whose text is not empty. *)
Definition candidates (bodies : list (list byte)) : list string :=
  filter PyText.truthy (map line_text bodies).

(** The bytes of a sequence of lines, each followed by its line feed. *)
Definition on_wire (bodies : list (list byte)) : list byte :=
  List.concat (map (fun body => body ++ [PyText.LF]) bodies).

(** A well-formed line of the wire: no line feed inside, and
    well-formed UTF-8 together with its line feed. *)
Definition wire_ok (body : list byte) : Prop :=
  ~ In PyText.LF body /\ PyText.utf8_valid (body ++ [PyText.LF]) = true.

(** What the loop does to its two local variables, text by text. *)
Fixpoint keep_latest (texts : list string) (latest_data : option string)
         (packets_discarded : nat) : option string * nat :=
  match texts with
  | [] => (latest_data, packets_discarded)
  | text :: rest =>
      if PyText.truthy text then
        keep_latest rest (Some text)
          (match latest_data with
           | Some _ => S packets_discarded
           | None => packets_discarded
           end)
      else keep_latest rest latest_data packets_discarded
  end.

(** [keeps f m]: whatever [m] does, and however it ends, the observation
    [f] of the object is the same afterwards. *)
Definition keeps {A B} (f : RealTimeIMU -> B) (m : M A) : Prop :=
  forall s, f (snd (m s)) = f s.

(** The link to the device never fails. *)
Definition link_healthy (s : RealTimeIMU) : Prop :=
  exists p, serial_port s = Some p /\ healthy_calls p = None.

(** [ends m]: [m] returns or raises; its loops do not exhaust their fuel. *)
Definition ends {A} (m : M A) : Prop :=
  forall s, fst (m s) <> OutOfFuel.

(** Everything of the object but the port and the printed output. *)
Definition beside_io (s : RealTimeIMU) :=
  (orientation s, demo_mode s, demo_time s, serial_connected s,
   buffer_clear_interval s, last_buffer_clear s, max_buffer_size s,
   data_count s, last_data_time s).

(** The bytes in the input buffer, when there is a port. *)
Definition buffered (s : RealTimeIMU) : option (list byte) :=
  option_map in_buffer (serial_port s).

(** Whether a read ended by accepting a sample (returned True). *)
Definition accepted (o : outcome bool) : bool :=
  match o with Ret true => true | _ => false end.

(** LIVE before STALE before OLD. *)
Definition staleness (f : Freshness) : nat :=
  match f with LIVE => 0 | STALE => 1 | OLD => 2 end.

Definition is_tick (ev : event) : bool :=
  match ev with Tick _ _ => true | KeyPress _ => false end.

(** A byte that no UTF-8 text contains, and a pending input made of a
    sample, an undecodable line and a second sample. *)
Definition garbled_between_samples : RealTimeIMU :=
  connected_to
    (healthy_port (wire_line "1.0,2.0,3.0" ++ [xff; PyText.LF]
                   ++ wire_line "4.0,5.0,6.0")).

(** A port whose link has already failed. *)
Definition dead_link : RealTimeIMU :=
  connected_to (mkSerial (wire_line "1.0,2.0,3.0") [] 0.01 (Some 0%nat)).

(** More than [max_buffer_size] bytes pending: nine samples, 108 bytes. *)
Definition backlog : RealTimeIMU :=
  connected_to (healthy_port (List.concat (repeat (wire_line "1.0,2.0,3.0") 9))).

(** Whether [serial.Serial(...)] gave a port. *)
Definition opened_ok (opened : exn + Serial) : bool :=
  match opened with inr _ => true | inl _ => false end.

(** ** Concrete objects used as inputs *)

(** A sample whose line feed has not arrived: the read of it times out
    and returns the bytes received so far. *)
Definition unterminated_sample : RealTimeIMU :=
  connected_to (healthy_port (list_byte_of_string "1.0,2.0,3")).

(** Two samples pending on a link that fails at its fifth call: the
    second [readline] of the tick. *)
Definition link_drops_mid_read : RealTimeIMU :=
  connected_to
    (mkSerial (wire_line "1.0,2.0,3.0" ++ wire_line "4.0,5.0,6.0") [] 0.01
              (Some 4%nat)).

(** Two samples pending, none read yet. *)
Definition two_lines : RealTimeIMU :=
  connected_to (healthy_port (wire_line "1.0,2.0,3.0" ++ wire_line "4.0,5.0,6.0")).

(** A port with two lines still on the wire when the flush is asked. *)
Definition two_in_flight : RealTimeIMU :=
  connected_to (mkSerial [] (wire_line "1.0,2.0,3.0" ++ wire_line "4.0,5.0,6.0")
                         0.01 None).

(** A backlog of [n] lines "1.0,2.0,3.0" that the reset request does not
    remove. *)
Definition flood (n : nat) : RealTimeIMU :=
  connected_to
    (mkSerial [] (List.concat (repeat (wire_line "1.0,2.0,3.0") n)) 0.01 None).

(** The object after [serial.Serial(...)] raised [e]. *)
Definition failed_open (e : exn) : RealTimeIMU :=
  set_demo_mode true
    (set_serial_connected false
       (set_stdout [MsgConnecting; MsgConnectionFailed e] initial)).

(** A malformed line: the second field is not a number. *)
Definition bad_second_field : RealTimeIMU :=
  connected_to (healthy_port (wire_line "1.0,abc,3.0")).

(** Four lines pending: a sample, an empty line, a second sample and a
    line of blanks.  Two of them count. *)
Definition four_lines : list (list byte) :=
  [list_byte_of_string "1.0,2.0,3.0"; []; list_byte_of_string "4.0,5.0,6.0";
   list_byte_of_string "  "].

(** * Properties *)

Lemma Qltb_lt (x y : Q) : Qltb x y = true <-> x < y.
Proof. unfold Qltb, Qlt. apply Z.ltb_lt. Qed.

Lemma Qltb_ge (x y : Q) : Qltb x y = false <-> y <= x.
Proof. unfold Qltb, Qle. apply Z.ltb_ge. Qed.

(** ** Freshness classification (draw_realtime_cube, lines 275-276) *)

Lemma freshness_of_age_LIVE (age : Q) :
  age < 0.5 -> freshness_of_age age = LIVE.
Proof.
  intros H. unfold freshness_of_age.
  apply Qltb_lt in H. now rewrite H.
Qed.

Lemma freshness_of_age_STALE (age : Q) :
  0.5 <= age -> age < 2 -> freshness_of_age age = STALE.
Proof.
  intros H1 H2. unfold freshness_of_age.
  apply Qltb_ge in H1. apply Qltb_lt in H2. now rewrite H1, H2.
Qed.

Lemma freshness_of_age_OLD (age : Q) :
  2 <= age -> freshness_of_age age = OLD.
Proof.
  intros H. unfold freshness_of_age.
  assert (H1 : 0.5 <= age) by lra.
  apply Qltb_ge in H. apply Qltb_ge in H1. now rewrite H1, H.
Qed.

Lemma data_age_accepted (now : Q) (s : RealTimeIMU) :
  0 < last_data_time s -> data_age now s = now - last_data_time s.
Proof. intros H. unfold data_age. apply Qltb_lt in H. now rewrite H. Qed.

Lemma data_age_never (now : Q) (s : RealTimeIMU) :
  last_data_time s <= 0 -> data_age now s = 0.
Proof. intros H. unfold data_age. apply Qltb_ge in H. now rewrite H. Qed.

(** C4, as stated, fails: before any sample is accepted
    ([last_data_time] still 0, as [__init__] leaves it) the age is taken
    to be 0 and the marker is LIVE, not OLD. *)
Lemma C4_never_accepted_is_not_OLD :
  last_data_time initial = 0 /\ data_count initial = 0%nat /\
  freshness 100 initial = LIVE /\ freshness 100 initial <> OLD.
Proof. split; [| split; [| split]]; try reflexivity. discriminate. Qed.

(** C4, amended: once a sample has been accepted ([last_data_time] > 0)
    the marker is LIVE when [now - last_data_time < 0.5], STALE when
    [0.5 <= now - last_data_time < 2] and OLD otherwise; while no sample
    has been accepted ([last_data_time] not positive) it is LIVE. *)
Theorem C4_freshness_thresholds (now : Q) (s : RealTimeIMU) :
  (0 < last_data_time s ->
     (now - last_data_time s < 0.5 -> freshness now s = LIVE) /\
     (0.5 <= now - last_data_time s -> now - last_data_time s < 2 ->
        freshness now s = STALE) /\
     (2 <= now - last_data_time s -> freshness now s = OLD)) /\
  (last_data_time s <= 0 -> freshness now s = LIVE).
Proof.
  split.
  - intros Hacc. unfold freshness. rewrite (data_age_accepted now s Hacc).
    repeat split.
    + apply freshness_of_age_LIVE.
    + apply freshness_of_age_STALE.
    + apply freshness_of_age_OLD.
  - intros Hnever. unfold freshness. rewrite (data_age_never now s Hnever).
    reflexivity.
Qed.

(** The boundary values of the specification, with the last sample
    accepted at time 10, and the case of no sample. *)
Lemma C4_freshness_thresholds_witness :
  let s := set_last_data_time 10 initial in
  freshness 10.49 s = LIVE /\ freshness 10.5 s = STALE /\
  freshness 11.99 s = STALE /\ freshness 12 s = OLD /\
  freshness 12 initial = LIVE.
Proof.
  intros s.
  assert (Hacc : 0 < last_data_time s) by (simpl; lra).
  split; [| split; [| split; [| split]]].
  - apply (proj1 (C4_freshness_thresholds 10.49 s) Hacc). simpl. lra.
  - apply (proj1 (C4_freshness_thresholds 10.5 s) Hacc); simpl; lra.
  - apply (proj1 (C4_freshness_thresholds 11.99 s) Hacc); simpl; lra.
  - apply (proj1 (C4_freshness_thresholds 12 s) Hacc). simpl. lra.
  - apply (proj2 (C4_freshness_thresholds 12 initial)). simpl. lra.
Defined.

(** ** The two-line scenario (read_latest_serial_data, lines 154-176) *)

Lemma govern_two_lines (current_time : Q) :
  govern current_time two_lines = (Ret tt, two_lines) \/
  govern current_time two_lines =
    (Ret tt, set_last_buffer_clear current_time two_lines).
Proof.
  unfold govern, bind, gets.
  destruct (governance_due current_time two_lines); [right | left]; reflexivity.
Qed.

(** The whole read at any clock value: the second line is assigned. *)
Lemma read_two_lines (current_time : Q) :
  exists last_clear,
    read_latest_serial_data (runtime := Decimal.runtime) current_time two_lines =
    (Ret true,
     mkIMU 5 4 6 false 0 (Some (healthy_port [])) true 0.05 last_clear 100 1
           current_time [MsgSkipped 1]).
Proof.
  unfold read_latest_serial_data.
  unfold bind at 1. unfold gets at 1. unfold bind at 1. unfold gets at 1.
  change (serial_connected two_lines) with true.
  set (p := serial_port two_lines).
  assert (Hp : exists q, p = Some q) by (eexists; reflexivity).
  destruct Hp as [q ->].
  cbv beta iota.
  unfold try_except. unfold bind at 1.
  destruct (govern_two_lines current_time) as [H | H]; rewrite H;
    cbv beta iota; eexists; vm_compute; reflexivity.
Qed.

(** C5: with "1.0,2.0,3.0" then "4.0,5.0,6.0" pending, one read cycle
    selects the second line with a discard count of 1 and assigns its
    fields in the order pitch ([rotY]), roll ([rotX]), yaw ([rotZ]):
    pitch 4.0, roll 5.0, yaw 6.0. *)
Theorem C5_two_lines_latest_wins (current_time : Q) :
  fst (select_latest two_lines) = Ret (Some "4.0,5.0,6.0", 1%nat) /\
  exists s',
    read_latest_serial_data (runtime := Decimal.runtime) current_time two_lines
      = (Ret true, s') /\
    rotY s' == 4.0 /\ rotX s' == 5.0 /\ rotZ s' == 6.0 /\
    last_data_time s' = current_time /\
    stdout s' = [MsgSkipped 1].
Proof.
  split; [reflexivity |].
  destruct (read_two_lines current_time) as [last_clear ->].
  eexists. split; [reflexivity |]. simpl.
  repeat split.
Qed.

(** ** Frame reasoning: what a method leaves alone *)

Section Keeps.

Context {B : Type} (f : RealTimeIMU -> B).

Lemma keeps_ret {A} (a : A) : keeps f (ret a).
Proof. intros s. reflexivity. Qed.

Lemma keeps_raise {A} (e : exn) : keeps f (raise (A := A) e).
Proof. intros s. reflexivity. Qed.

Lemma keeps_gets {A} (g : RealTimeIMU -> A) : keeps f (gets g).
Proof. intros s. reflexivity. Qed.

Lemma keeps_out_of_fuel {A} : keeps f (fun s => (OutOfFuel (A := A), s)).
Proof. intros s. reflexivity. Qed.

Lemma keeps_bind {A C} (m : M A) (k : A -> M C) :
  keeps f m -> (forall a, keeps f (k a)) -> keeps f (bind m k).
Proof.
  intros Hm Hk s. unfold bind.
  specialize (Hm s). destruct (m s) as [[a | e |] s1]; simpl in *.
  - rewrite Hk. exact Hm.
  - exact Hm.
  - exact Hm.
Qed.

Lemma keeps_try {A} (m : M A) (catches : exn -> bool) (h : exn -> M A) :
  keeps f m -> (forall e, keeps f (h e)) -> keeps f (try_except m catches h).
Proof.
  intros Hm Hh s. unfold try_except.
  specialize (Hm s). destruct (m s) as [[a | e |] s1]; simpl in *; try exact Hm.
  destruct (catches e); simpl; [rewrite Hh |]; exact Hm.
Qed.

Lemma keeps_modify (g : RealTimeIMU -> RealTimeIMU) :
  (forall s, f (g s) = f s) -> keeps f (modify g).
Proof. intros Hg s. apply Hg. Qed.

Lemma keeps_print (msg : message) :
  (forall out s, f (set_stdout out s) = f s) -> keeps f (print msg).
Proof. intros Hf s. apply Hf. Qed.

Lemma keeps_on_port {A} (op : Serial -> (exn + A) * Serial) :
  (forall p s, f (set_serial_port p s) = f s) -> keeps f (on_port op).
Proof.
  intros Hf s. unfold on_port.
  destruct (serial_port s) as [p |]; [| reflexivity].
  destruct (op p) as [[e | a] p']; apply Hf.
Qed.

Lemma keeps_when (b : bool) (m : M unit) : keeps f m -> keeps f (when b m).
Proof. intros Hm. destruct b; [exact Hm | apply keeps_ret]. Qed.

End Keeps.

Lemma keeps_has_port_on_port {A} (op : Serial -> (exn + A) * Serial) :
  keeps has_port (on_port op).
Proof.
  intros s. unfold on_port, has_port.
  destruct (serial_port s) as [p |] eqn:Hp; simpl.
  - destruct (op p) as [[e | a] p']; reflexivity.
  - now rewrite Hp.
Qed.

(** Side conditions of the frame lemmas below. *)
Ltac frame_side :=
  first [ intros; reflexivity
        | intros; apply keeps_on_port; intros; reflexivity
        | intros; apply keeps_has_port_on_port ].

Section FramesOfIO.

Context {B : Type} (f : RealTimeIMU -> B).
Hypothesis f_io : forall A (op : Serial -> (exn + A) * Serial), keeps f (on_port op).
Hypothesis f_stdout : forall out s, f (set_stdout out s) = f s.

Lemma keeps_port_op {A} (op : Serial -> (exn + A) * Serial) : keeps f (on_port op).
Proof. apply f_io. Qed.

Lemma keeps_clear_loop (fuel discarded_count : nat) :
  keeps f (clear_loop fuel discarded_count).
Proof.
  revert discarded_count.
  induction fuel as [| fuel IH]; intros discarded_count; simpl.
  - apply keeps_bind; [apply keeps_port_op | intros n].
    destruct (0 <? n)%nat; [apply keeps_out_of_fuel | apply keeps_ret].
  - apply keeps_bind; [apply keeps_port_op | intros n].
    destruct (0 <? n)%nat; [| apply keeps_ret].
    apply keeps_bind; [apply keeps_port_op | intros _].
    destruct (50 <? S discarded_count)%nat; [apply keeps_ret | apply IH].
Qed.

Lemma keeps_clear_attempt : keeps f clear_attempt.
Proof.
  unfold clear_attempt.
  apply keeps_bind; [apply keeps_port_op | intros _].
  apply keeps_bind; [apply keeps_port_op | intros old_timeout].
  apply keeps_bind; [apply keeps_port_op | intros _].
  apply keeps_bind; [apply keeps_gets | intros fuel].
  apply keeps_bind; [apply keeps_clear_loop | intros n].
  apply keeps_bind; [apply keeps_port_op | intros _].
  apply keeps_when, keeps_print, f_stdout.
Qed.

Lemma keeps_clear_serial_buffer : keeps f clear_serial_buffer.
Proof.
  unfold clear_serial_buffer.
  apply keeps_bind; [apply keeps_gets | intros [p |]]; [| apply keeps_ret].
  apply keeps_try; [apply keeps_clear_attempt | intros e].
  apply keeps_print, f_stdout.
Qed.

Lemma keeps_read_stripped_line : keeps f read_stripped_line.
Proof.
  unfold read_stripped_line.
  apply keeps_bind; [apply keeps_port_op | intros raw].
  destruct (PyText.decode raw); [apply keeps_ret | apply keeps_raise].
Qed.

Lemma keeps_drain_latest (fuel : nat) (latest_data : option string)
      (packets_discarded : nat) :
  keeps f (drain_latest fuel latest_data packets_discarded).
Proof.
  revert latest_data packets_discarded.
  induction fuel as [| fuel IH]; intros latest_data packets_discarded; simpl.
  - apply keeps_bind; [apply keeps_port_op | intros n].
    destruct (0 <? n)%nat; [apply keeps_out_of_fuel | apply keeps_ret].
  - apply keeps_bind; [apply keeps_port_op | intros n].
    destruct (0 <? n)%nat; [| apply keeps_ret].
    apply keeps_bind.
    + apply keeps_try; [| intros e; apply keeps_ret].
      apply keeps_bind; [apply keeps_read_stripped_line | intros line].
      apply keeps_ret.
    + intros [line |]; [| apply keeps_ret].
      destruct (PyText.truthy line); apply IH.
Qed.

Lemma keeps_select_latest : keeps f select_latest.
Proof.
  unfold select_latest.
  apply keeps_bind; [apply keeps_gets | intros fuel].
  apply keeps_drain_latest.
Qed.

Lemma keeps_buffer_size : keeps f buffer_size.
Proof.
  unfold buffer_size.
  apply keeps_bind; [apply keeps_gets | intros [p |]];
    [apply keeps_port_op | apply keeps_ret].
Qed.

Lemma keeps_draw_realtime_cube (now : Q) : keeps f (draw_realtime_cube now).
Proof.
  unfold draw_realtime_cube.
  apply keeps_bind; [apply keeps_gets | intros s].
  apply keeps_bind; [apply keeps_buffer_size | intros n].
  apply keeps_ret.
Qed.

Lemma keeps_draw_ui_panels : keeps f draw_ui_panels.
Proof.
  unfold draw_ui_panels.
  apply keeps_bind; [apply keeps_gets | intros s].
  apply keeps_bind; [apply keeps_buffer_size | intros n].
  apply keeps_ret.
Qed.

End FramesOfIO.

(** ** Inversion of the monad's combinators *)

Lemma bind_Ret {A C} (m : M A) (k : A -> M C) s c s' :
  bind m k s = (Ret c, s') ->
  exists a s1, m s = (Ret a, s1) /\ k a s1 = (Ret c, s').
Proof.
  unfold bind. destruct (m s) as [[a | e |] s1]; intros H; try discriminate.
  exists a, s1. split; [reflexivity | exact H].
Qed.

Lemma on_port_Ret {A} (op : Serial -> (exn + A) * Serial) s a s' :
  on_port op s = (Ret a, s') ->
  exists p p', serial_port s = Some p /\ op p = (inr a, p') /\
               s' = set_serial_port (Some p') s.
Proof.
  unfold on_port. destruct (serial_port s) as [p |]; [| discriminate].
  destruct (op p) as [[e | a'] p'] eqn:Hop; intros H; inversion H; subst.
  exists p, p'. auto.
Qed.

Lemma on_port_some {A} (op : Serial -> (exn + A) * Serial) s p :
  serial_port s = Some p ->
  on_port op s =
    (match fst (op p) with inl e => Raise e | inr a => Ret a end,
     set_serial_port (Some (snd (op p))) s).
Proof.
  intros Hp. unfold on_port. rewrite Hp.
  destruct (op p) as [[e | a] p']; reflexivity.
Qed.

(** ** The port under the I/O calls *)

Lemma io_timeout {A} (p : Serial) (k : Serial -> A * Serial) :
  (forall q, timeout (snd (k q)) = timeout q) ->
  timeout (snd (Port.io p k)) = timeout p.
Proof.
  intros Hk. unfold Port.io.
  destruct (healthy_calls p) as [[| n] |]; simpl.
  - reflexivity.
  - specialize (Hk (mkSerial (in_buffer p) (in_flight p) (timeout p) (Some n))).
    destruct (k _); simpl in *. exact Hk.
  - specialize (Hk p). destruct (k p); simpl in *. exact Hk.
Qed.

Lemma reset_input_buffer_timeout (p : Serial) :
  timeout (snd (Port.reset_input_buffer p)) = timeout p.
Proof. apply io_timeout. reflexivity. Qed.

(** ** Restoring the read timeout (clear_serial_buffer, lines 115-125) *)

(** When the flush attempt runs to its end without an exception, the
    port's read timeout is again what it was before the call. *)
Lemma timeout_restored_on_completion (s s' : RealTimeIMU) (p : Serial) :
  serial_port s = Some p ->
  clear_attempt s = (Ret tt, s') ->
  exists p', serial_port s' = Some p' /\ timeout p' = timeout p.
Proof.
  intros Hp Hrun. unfold clear_attempt in Hrun.
  apply bind_Ret in Hrun as (u1 & s1 & Hreset & Hrun).
  apply on_port_Ret in Hreset as (p0 & p1 & Hp0 & Hop & Hs1).
  rewrite Hp in Hp0. inversion Hp0; subst p0; clear Hp0.
  assert (Ht1 : timeout p1 = timeout p).
  { pose proof (reset_input_buffer_timeout p) as H. rewrite Hop in H. exact H. }
  apply bind_Ret in Hrun as (old_timeout & s2 & Hget & Hrun).
  apply on_port_Ret in Hget as (q & q' & Hq & Hop2 & Hs2).
  subst s1. simpl in Hq. inversion Hq; subst q; clear Hq.
  inversion Hop2; subst old_timeout q'; clear Hop2.
  apply bind_Ret in Hrun as (u3 & s3 & Hset & Hrun).
  apply bind_Ret in Hrun as (fuel & s4 & Hfuel & Hrun).
  apply bind_Ret in Hrun as (n & s5 & Hloop & Hrun).
  apply bind_Ret in Hrun as (u6 & s6 & Hrestore & Hrun).
  apply on_port_Ret in Hrestore as (q5 & q6 & Hq5 & Hop6 & Hs6).
  inversion Hop6; subst q6; clear Hop6.
  exists (Port.set_timeout (timeout p1) q5). split; [| exact Ht1].
  unfold when in Hrun. destruct (0 <? n)%nat.
  - inversion Hrun; subst s' s6. reflexivity.
  - inversion Hrun; subst s' s6. reflexivity.
Qed.

(** Why "without an exception" is needed: when the link fails inside the
    drain loop the handler runs before the timeout is put back, and the
    0.001 s timeout stays. *)
Example link_failure_leaves_drain_timeout :
  let p := mkSerial [] (wire_line "1.0,2.0,3.0" ++ wire_line "4.0,5.0,6.0")
                    0.01 (Some 3%nat) in
  option_map timeout (serial_port (snd (clear_serial_buffer (connected_to p))))
    = Some 0.001 /\
  stdout (snd (clear_serial_buffer (connected_to p)))
    = [MsgBufferClearError SerialException].
Proof. split; vm_compute; reflexivity. Qed.

(** ** The drain loops end *)

Lemma in_waiting_cases (p : Serial) :
  Port.in_waiting p = (inl SerialException, p) \/
  exists p1, Port.in_waiting p = (inr (List.length (in_buffer p)), p1) /\
             in_buffer p1 = in_buffer p /\ in_flight p1 = in_flight p /\
             timeout p1 = timeout p.
Proof.
  unfold Port.in_waiting, Port.io.
  destruct (healthy_calls p) as [[| n] |]; [left; reflexivity | right | right];
    eexists; simpl; repeat split.
Qed.

Lemma readline_cases (p : Serial) :
  Port.readline p = (inl SerialException, p) \/
  exists p1, Port.readline p = (inr (fst (Port.take_line (in_buffer p))), p1) /\
             in_buffer p1 = snd (Port.take_line (in_buffer p)) /\
             in_flight p1 = in_flight p /\ timeout p1 = timeout p.
Proof.
  unfold Port.readline, Port.io.
  destruct (healthy_calls p) as [[| n] |]; [left; reflexivity | right | right];
    simpl; destruct (Port.take_line (in_buffer p)) as [l r];
    eexists; simpl; repeat split.
Qed.

Lemma take_line_shorter (bs : list byte) :
  bs <> [] -> (List.length (snd (Port.take_line bs)) < List.length bs)%nat.
Proof.
  induction bs as [| b r IH]; intros Hne; [contradiction |].
  simpl. destruct (Byte.eqb b PyText.LF); simpl; [lia |].
  destruct r as [| b' r'].
  - simpl. lia.
  - assert (H : (b' :: r') <> []) by discriminate.
    specialize (IH H). destruct (Port.take_line (b' :: r')) as [l r2].
    simpl in *. lia.
Qed.

(** After a successful [in_waiting] the buffer is as before. *)
Lemma port_in_waiting_Ret s n s1 :
  port_in_waiting s = (Ret n, s1) -> n = pending s /\ pending s1 = pending s.
Proof.
  intros H. apply on_port_Ret in H as (p & p1 & Hp & Hop & Hs1).
  unfold pending. subst s1. rewrite Hp. simpl.
  destruct (in_waiting_cases p) as [Hf | (q & Hq & Hbuf & _)].
  - rewrite Hf in Hop. discriminate.
  - rewrite Hq in Hop. inversion Hop; subst. now rewrite Hbuf.
Qed.

(** A successful [readline] on pending bytes consumes at least one. *)
Lemma port_readline_Ret s raw s1 :
  port_readline s = (Ret raw, s1) ->
  (0 < pending s)%nat -> (pending s1 < pending s)%nat.
Proof.
  intros H Hpos. apply on_port_Ret in H as (p & p1 & Hp & Hop & Hs1).
  unfold pending in *. subst s1. rewrite Hp in *. simpl.
  destruct (readline_cases p) as [Hf | (q & Hq & Hbuf & _)].
  - rewrite Hf in Hop. discriminate.
  - rewrite Hq in Hop. inversion Hop; subst. rewrite Hbuf.
    apply take_line_shorter. intros Hnil. rewrite Hnil in Hpos. simpl in Hpos. lia.
Qed.

Lemma clear_loop_ends (fuel discarded_count : nat) (s : RealTimeIMU) :
  (pending s < fuel)%nat ->
  fst (clear_loop fuel discarded_count s) <> OutOfFuel.
Proof.
  revert discarded_count s.
  induction fuel as [| fuel IH]; intros discarded_count s Hfuel; [lia |].
  simpl. unfold bind at 1.
  destruct (port_in_waiting s) as [[n | e |] s1] eqn:Hn; simpl; try discriminate.
  - apply port_in_waiting_Ret in Hn as [-> Hs1].
    destruct (0 <? pending s)%nat eqn:Hpos; [| discriminate].
    apply Nat.ltb_lt in Hpos.
    unfold bind.
    destruct (port_readline s1) as [[raw | e |] s2] eqn:Hr; simpl; try discriminate.
    + apply port_readline_Ret in Hr; [| lia].
      destruct (50 <? S discarded_count)%nat; [discriminate |].
      apply IH. lia.
    + exfalso. unfold port_readline, on_port in Hr.
      destruct (serial_port s1); [| discriminate].
      destruct (Port.readline s0) as [[? | ?] ?]; discriminate.
  - exfalso. unfold port_in_waiting, on_port in Hn.
    destruct (serial_port s); [| discriminate].
    destruct (Port.in_waiting s0) as [[? | ?] ?]; discriminate.
Qed.

Lemma drain_latest_ends (fuel : nat) latest_data packets_discarded (s : RealTimeIMU) :
  (pending s < fuel)%nat ->
  fst (drain_latest fuel latest_data packets_discarded s) <> OutOfFuel.
Proof.
  revert latest_data packets_discarded s.
  induction fuel as [| fuel IH]; intros latest_data packets_discarded s Hfuel; [lia |].
  simpl. unfold bind at 1.
  destruct (port_in_waiting s) as [[n | e |] s1] eqn:Hn; simpl; try discriminate.
  - apply port_in_waiting_Ret in Hn as [-> Hs1].
    destruct (0 <? pending s)%nat eqn:Hpos; [| discriminate].
    apply Nat.ltb_lt in Hpos.
    unfold bind at 1, try_except, read_stripped_line.
    unfold bind at 1. unfold bind at 1.
    destruct (port_readline s1) as [[raw | e |] s2] eqn:Hr; simpl; try discriminate.
    + apply port_readline_Ret in Hr; [| lia].
      destruct (PyText.decode raw) as [text |]; simpl; [| discriminate].
      destruct (PyText.truthy (PyText.strip text)); apply IH; lia.
    + exfalso. unfold port_readline, on_port in Hr.
      destruct (serial_port s1); [| discriminate].
      destruct (Port.readline s0) as [[? | ?] ?]; discriminate.
  - exfalso. unfold port_in_waiting, on_port in Hn.
    destruct (serial_port s); [| discriminate].
    destruct (Port.in_waiting s0) as [[? | ?] ?]; discriminate.
Qed.

Lemma pending_fuel_enough (s : RealTimeIMU) :
  exists fuel, pending_fuel s = (Ret fuel, s) /\ (pending s < fuel)%nat.
Proof.
  unfold pending_fuel, gets, pending.
  destruct (serial_port s); eexists; split; try reflexivity; lia.
Qed.

(** [select_latest] always comes back: with a line count or an exception. *)
Lemma select_latest_ends (s : RealTimeIMU) :
  fst (select_latest s) <> OutOfFuel.
Proof.
  unfold select_latest, bind.
  destruct (pending_fuel_enough s) as (fuel & -> & Hfuel).
  now apply drain_latest_ends.
Qed.

(** ** The bound of the flush (clear_serial_buffer, lines 118-123) *)

Lemma clear_loop_bound (fuel discarded_count : nat) (s s' : RealTimeIMU) (n : nat) :
  clear_loop fuel discarded_count s = (Ret n, s') ->
  (discarded_count <= n <= Nat.max (S discarded_count) 51)%nat.
Proof.
  revert discarded_count s.
  induction fuel as [| fuel IH]; intros discarded_count s Hrun; simpl in Hrun.
  - apply bind_Ret in Hrun as (k & s1 & _ & Hrun).
    destruct (0 <? k)%nat; [discriminate |]. inversion Hrun; subst. lia.
  - apply bind_Ret in Hrun as (k & s1 & _ & Hrun).
    destruct (0 <? k)%nat; [| inversion Hrun; subst; lia].
    apply bind_Ret in Hrun as (raw & s2 & _ & Hrun).
    destruct (50 <? S discarded_count)%nat eqn:Hlimit.
    + inversion Hrun; subst. lia.
    + apply Nat.ltb_ge in Hlimit. apply IH in Hrun. lia.
Qed.

(** The flush attempt never runs out of fuel, and what it reports as
    discarded is at most 51 lines. *)
Lemma clear_attempt_ends (s : RealTimeIMU) :
  fst (clear_attempt s) <> OutOfFuel.
Proof.
  unfold clear_attempt.
  unfold bind at 1.
  destruct (port_reset_input_buffer s) as [[u | e |] s1] eqn:H1; simpl; try discriminate.
  2:{ exfalso. unfold port_reset_input_buffer, on_port in H1.
      destruct (serial_port s); [| discriminate].
      destruct (Port.reset_input_buffer s0) as [[? | ?] ?]; discriminate. }
  unfold bind at 1.
  destruct (port_get_timeout s1) as [[old | e |] s2] eqn:H2; simpl; try discriminate.
  2:{ exfalso. unfold port_get_timeout, on_port in H2.
      destruct (serial_port s1); discriminate. }
  unfold bind at 1.
  destruct (port_set_timeout 0.001 s2) as [[u2 | e |] s3] eqn:H3; simpl; try discriminate.
  2:{ exfalso. unfold port_set_timeout, on_port in H3.
      destruct (serial_port s2); discriminate. }
  unfold bind at 1.
  destruct (pending_fuel_enough s3) as (fuel & -> & Hfuel).
  unfold bind at 1.
  pose proof (clear_loop_ends fuel 0 s3 Hfuel) as Hends.
  destruct (clear_loop fuel 0 s3) as [[n | e |] s4]; simpl in *;
    try discriminate; [| contradiction].
  unfold bind.
  destruct (port_set_timeout old s4) as [[u3 | e |] s5] eqn:H5; simpl; try discriminate.
  - destruct (0 <? n)%nat; discriminate.
  - exfalso. unfold port_set_timeout, on_port in H5.
    destruct (serial_port s4); discriminate.
Qed.

Lemma clear_serial_buffer_returns (s : RealTimeIMU) :
  fst (clear_serial_buffer s) = Ret tt.
Proof.
  unfold clear_serial_buffer, bind, gets.
  destruct (serial_port s) as [p |]; [| reflexivity].
  unfold try_except.
  pose proof (clear_attempt_ends s) as Hends.
  destruct (clear_attempt s) as [[[] | e |] s1]; simpl in *;
    [reflexivity | reflexivity | contradiction].
Qed.

(** C3 against the code: with 1000 lines pending after the reset, one
    call of [clear_serial_buffer] reads and discards 51 lines, one more
    than the limit of 50, and leaves the other 949 (12 bytes each). *)
Theorem C3_flush_discards_51_lines :
  fst (clear_serial_buffer (flood 1000)) = Ret tt /\
  stdout (snd (clear_serial_buffer (flood 1000))) = [MsgDiscarded 51] /\
  pending (snd (clear_serial_buffer (flood 1000))) = (949 * 12)%nat.
Proof. split; [| split]; vm_compute; reflexivity. Qed.

(** ** Restoring the read timeout on a healthy link *)

Lemma on_port_healthy {A} (op : Serial -> (exn + A) * Serial) (s : RealTimeIMU) :
  link_healthy s ->
  (forall p, healthy_calls p = None ->
             exists a p', op p = (inr a, p') /\ healthy_calls p' = None) ->
  exists a s', on_port op s = (Ret a, s') /\ link_healthy s'.
Proof.
  intros (p & Hp & Hh) Hop.
  destruct (Hop p Hh) as (a & p' & Hrun & Hh').
  exists a, (set_serial_port (Some p') s). split.
  - rewrite (on_port_some op s p Hp), Hrun. reflexivity.
  - exists p'. split; [reflexivity | exact Hh'].
Qed.

Lemma io_healthy {A} (k : Serial -> A * Serial) (p : Serial) :
  healthy_calls p = None ->
  (forall q, healthy_calls q = None -> healthy_calls (snd (k q)) = None) ->
  exists a p', Port.io p k = (inr a, p') /\ healthy_calls p' = None.
Proof.
  intros Hh Hk. unfold Port.io. rewrite Hh.
  specialize (Hk p Hh). destruct (k p) as [a p']. now exists a, p'.
Qed.

Lemma in_waiting_stays_healthy (s : RealTimeIMU) :
  link_healthy s -> exists n s', port_in_waiting s = (Ret n, s') /\ link_healthy s'.
Proof.
  intros H. apply on_port_healthy; [exact H |].
  intros p Hh. apply io_healthy; [exact Hh | intros q Hq; exact Hq].
Qed.

Lemma readline_stays_healthy (s : RealTimeIMU) :
  link_healthy s -> exists raw s', port_readline s = (Ret raw, s') /\ link_healthy s'.
Proof.
  intros H. apply on_port_healthy; [exact H |].
  intros p Hh. apply io_healthy; [exact Hh |].
  intros q Hq. destruct (Port.take_line (in_buffer q)). exact Hq.
Qed.

Lemma reset_stays_healthy (s : RealTimeIMU) :
  link_healthy s ->
  exists u s', port_reset_input_buffer s = (Ret u, s') /\ link_healthy s'.
Proof.
  intros H. apply on_port_healthy; [exact H |].
  intros p Hh. apply io_healthy; [exact Hh | intros q Hq; exact Hq].
Qed.

Lemma get_timeout_stays_healthy (s : RealTimeIMU) :
  link_healthy s -> exists t s', port_get_timeout s = (Ret t, s') /\ link_healthy s'.
Proof.
  intros H. apply on_port_healthy; [exact H |].
  intros p Hh. now exists (timeout p), p.
Qed.

Lemma set_timeout_stays_healthy (t : Q) (s : RealTimeIMU) :
  link_healthy s -> exists u s', port_set_timeout t s = (Ret u, s') /\ link_healthy s'.
Proof.
  intros H. apply on_port_healthy; [exact H |].
  intros p Hh. now exists tt, (Port.set_timeout t p).
Qed.

Lemma clear_loop_healthy (fuel discarded_count : nat) (s : RealTimeIMU) :
  link_healthy s -> (pending s < fuel)%nat ->
  exists n s', clear_loop fuel discarded_count s = (Ret n, s') /\ link_healthy s'.
Proof.
  revert discarded_count s.
  induction fuel as [| fuel IH]; intros discarded_count s Hh Hfuel; [lia |].
  destruct (in_waiting_stays_healthy s Hh) as (k & s1 & Hk & Hh1).
  simpl. unfold bind at 1. rewrite Hk.
  apply port_in_waiting_Ret in Hk as [-> Hs1].
  destruct (0 <? pending s)%nat eqn:Hpos; [| now exists discarded_count, s1].
  apply Nat.ltb_lt in Hpos.
  destruct (readline_stays_healthy s1 Hh1) as (raw & s2 & Hraw & Hh2).
  unfold bind at 1. rewrite Hraw.
  apply port_readline_Ret in Hraw; [| lia].
  destruct (50 <? S discarded_count)%nat; [now exists (S discarded_count), s2 |].
  apply IH; [exact Hh2 | lia].
Qed.

Lemma clear_attempt_healthy (s : RealTimeIMU) :
  link_healthy s -> exists s', clear_attempt s = (Ret tt, s').
Proof.
  intros Hh. unfold clear_attempt.
  destruct (reset_stays_healthy s Hh) as (u1 & s1 & H1 & Hh1).
  unfold bind at 1. rewrite H1.
  destruct (get_timeout_stays_healthy s1 Hh1) as (old & s2 & H2 & Hh2).
  unfold bind at 1. rewrite H2.
  destruct (set_timeout_stays_healthy 0.001 s2 Hh2) as (u3 & s3 & H3 & Hh3).
  unfold bind at 1. rewrite H3.
  destruct (pending_fuel_enough s3) as (fuel & H4 & Hfuel).
  unfold bind at 1. rewrite H4.
  destruct (clear_loop_healthy fuel 0 s3 Hh3 Hfuel) as (n & s5 & H5 & Hh5).
  unfold bind at 1. rewrite H5.
  destruct (set_timeout_stays_healthy old s5 Hh5) as (u6 & s6 & H6 & _).
  unfold bind. rewrite H6.
  destruct (0 <? n)%nat; simpl; eexists; reflexivity.
Qed.

(** C10: a call of the flush that runs to its end without an exception
    leaves the port's read timeout at the value it had before the call,
    not at the 0.001 s of the drain; on a link that does not fail every
    call of [clear_serial_buffer] runs to its end and does so. *)
Theorem C10_timeout_restored (s : RealTimeIMU) (p : Serial) :
  serial_port s = Some p ->
  (forall s', clear_attempt s = (Ret tt, s') ->
     exists p', serial_port s' = Some p' /\ timeout p' = timeout p) /\
  (healthy_calls p = None ->
     fst (clear_serial_buffer s) = Ret tt /\
     exists p', serial_port (snd (clear_serial_buffer s)) = Some p' /\
                timeout p' = timeout p).
Proof.
  intros Hp. split.
  - intros s' Hrun. exact (timeout_restored_on_completion s s' p Hp Hrun).
  - intros Hh. split; [apply clear_serial_buffer_returns |].
    assert (Hl : link_healthy s) by (exists p; now split).
    destruct (clear_attempt_healthy s Hl) as (s' & Hrun).
    unfold clear_serial_buffer, bind, gets, try_except. rewrite Hp, Hrun. simpl.
    exact (timeout_restored_on_completion s s' p Hp Hrun).
Qed.

(** On a healthy port opened with a 0.01 s timeout and two lines in
    flight, the flush ends with the timeout at 0.01 s. *)
Lemma C10_timeout_restored_witness :
  exists p', serial_port (snd (clear_serial_buffer two_in_flight)) = Some p' /\
             timeout p' = 0.01.
Proof.
  apply (C10_timeout_restored two_in_flight
           (mkSerial [] (wire_line "1.0,2.0,3.0" ++ wire_line "4.0,5.0,6.0")
                     0.01 None) eq_refl).
  reflexivity.
Defined.

(** ** The periodic check (read_latest_serial_data, lines 142-148) *)

Lemma govern_not_due (t : Q) (s : RealTimeIMU) :
  governance_due t s = false -> govern t s = (Ret tt, s).
Proof. intros H. unfold govern, bind, gets. rewrite H. reflexivity. Qed.

(** However the check ends, [last_buffer_clear] is either untouched or
    set to the clock value of a call whose gate was open. *)
Lemma govern_last_buffer_clear (t : Q) (s : RealTimeIMU) :
  last_buffer_clear (snd (govern t s)) = last_buffer_clear s \/
  (governance_due t s = true /\ last_buffer_clear (snd (govern t s)) = t).
Proof.
  destruct (governance_due t s) eqn:Hdue;
    [| left; now rewrite govern_not_due].
  remember (govern t s) as r eqn:Hr.
  unfold govern, bind at 1, gets at 1 in Hr. rewrite Hdue in Hr.
  unfold when at 1, bind at 1 in Hr.
  pose proof (keeps_on_port last_buffer_clear Port.in_waiting
                (fun _ _ => eq_refl) s) as H1.
  fold port_in_waiting in H1.
  destruct (port_in_waiting s) as [[n | e |] s1]; simpl in H1;
    [| left; subst r; exact H1 | left; subst r; exact H1].
  unfold bind at 1, gets at 1 in Hr. unfold bind at 1 in Hr.
  assert (H2 : keeps last_buffer_clear
                 (when (max_buffer_size s1 <? n)%nat
                    (bind port_in_waiting (fun n' =>
                       bind (print (MsgBufferSize n')) (fun _ => clear_serial_buffer))))).
  { apply keeps_when.
    apply keeps_bind; [apply keeps_on_port; reflexivity | intros n'].
    apply keeps_bind; [apply keeps_print; reflexivity | intros _].
    apply keeps_clear_serial_buffer; frame_side. }
  specialize (H2 s1).
  destruct (when _ _ s1) as [[u | e |] s2]; simpl in *; subst r; simpl.
  - right. split; reflexivity.
  - left. congruence.
  - left. congruence.
Qed.

Lemma govern_completed (t : Q) (s s1 : RealTimeIMU) :
  governance_due t s = true -> govern t s = (Ret tt, s1) ->
  last_buffer_clear s1 = t /\ buffer_clear_interval s1 = buffer_clear_interval s.
Proof.
  intros Hdue Hrun. unfold govern in Hrun.
  apply bind_Ret in Hrun as (due & s0 & Hgets & Hrun).
  unfold gets in Hgets. inversion Hgets; subst due s0; clear Hgets.
  rewrite Hdue in Hrun. unfold when at 1 in Hrun.
  apply bind_Ret in Hrun as (n & s2 & Hn & Hrun).
  apply bind_Ret in Hrun as (limit & s3 & Hlimit & Hrun).
  unfold gets in Hlimit. inversion Hlimit; subst limit s3; clear Hlimit.
  apply bind_Ret in Hrun as (u & s4 & Hclear & Hrun).
  unfold modify in Hrun. inversion Hrun; subst s1; clear Hrun.
  split; [reflexivity |]. simpl.
  pose proof (keeps_on_port buffer_clear_interval Port.in_waiting
                (fun _ _ => eq_refl) s) as H1.
  fold port_in_waiting in H1. rewrite Hn in H1. simpl in H1.
  assert (H2 : keeps buffer_clear_interval
                 (when (max_buffer_size s2 <? n)%nat
                    (bind port_in_waiting (fun n' =>
                       bind (print (MsgBufferSize n')) (fun _ => clear_serial_buffer))))).
  { apply keeps_when.
    apply keeps_bind; [apply keeps_on_port; reflexivity | intros n'].
    apply keeps_bind; [apply keeps_print; reflexivity | intros _].
    apply keeps_clear_serial_buffer; frame_side. }
  specialize (H2 s2). rewrite Hclear in H2. simpl in H2. congruence.
Qed.

(** C6, as stated, fails: two calls 0.03 s apart, the first of them
    inside the interval opened by an earlier check at time 100 (so it is
    skipped), the second past it.  The check runs in the second call,
    which is then not a no-op. *)
Lemma C6_second_call_can_run_the_check :
  let s := set_last_buffer_clear 100 (connected_to (healthy_port [])) in
  100.06 - 100.03 < buffer_clear_interval s /\
  govern 100.03 s = (Ret tt, s) /\
  govern 100.06 s <> (Ret tt, s) /\
  last_buffer_clear (snd (govern 100.06 s)) = 100.06.
Proof.
  split; [| split; [| split]].
  - simpl. lra.
  - reflexivity.
  - vm_compute. discriminate.
  - reflexivity.
Qed.

(** C6, amended: for two calls less than [buffer_clear_interval] apart,
    when the first ran the check (its gate was open and it completed
    without an exception) the second is a no-op whatever the port then
    holds, so the check runs in at most one of the two; and
    [last_buffer_clear] never decreases across the calls. *)
Theorem C6_governance_throttled (t1 t2 : Q) (s : RealTimeIMU) :
  0 <= buffer_clear_interval s ->
  t2 - t1 < buffer_clear_interval s ->
  (forall s1 port',
     governance_due t1 s = true -> govern t1 s = (Ret tt, s1) ->
     governance_due t2 (set_serial_port port' s1) = false /\
     govern t2 (set_serial_port port' s1) = (Ret tt, set_serial_port port' s1)) /\
  last_buffer_clear s <= last_buffer_clear (snd (govern t1 s)) /\
  (forall port',
     last_buffer_clear (snd (govern t1 s)) <=
     last_buffer_clear (snd (govern t2 (set_serial_port port' (snd (govern t1 s)))))).
Proof.
  intros Hpos Hclose.
  assert (Hmono : forall t s0, 0 <= buffer_clear_interval s0 ->
            last_buffer_clear s0 <= last_buffer_clear (snd (govern t s0))).
  { intros t s0 H0.
    destruct (govern_last_buffer_clear t s0) as [-> | [Hdue ->]]; [lra |].
    unfold governance_due in Hdue. apply Qltb_lt in Hdue. lra. }
  split; [| split].
  - intros s1 port' Hdue Hrun.
    destruct (govern_completed t1 s s1 Hdue Hrun) as [Hlast Hint].
    assert (Hnot : governance_due t2 (set_serial_port port' s1) = false).
    { unfold governance_due. simpl. apply Qltb_ge. rewrite Hlast, Hint. lra. }
    split; [exact Hnot | now apply govern_not_due].
  - now apply Hmono.
  - intros port'. apply (Hmono t2 (set_serial_port port' (snd (govern t1 s)))).
    simpl.
    assert (Hk : keeps buffer_clear_interval (govern t1)).
    { unfold govern.
      apply keeps_bind; [apply keeps_gets | intros due].
      apply keeps_when.
      apply keeps_bind; [apply keeps_on_port; reflexivity | intros n].
      apply keeps_bind; [apply keeps_gets | intros limit].
      apply keeps_bind; [| intros _; apply keeps_modify; reflexivity].
      apply keeps_when.
      apply keeps_bind; [apply keeps_on_port; reflexivity | intros n'].
      apply keeps_bind; [apply keeps_print; reflexivity | intros _].
      apply keeps_clear_serial_buffer; frame_side. }
    rewrite (Hk s). exact Hpos.
Qed.

(** A check at time 100 followed by a call 0.03 s later: the later call
    changes nothing. *)
Lemma C6_governance_throttled_witness :
  let s := connected_to (healthy_port []) in
  govern 100.03 (snd (govern 100 s)) = (Ret tt, snd (govern 100 s)) /\
  last_buffer_clear s <= last_buffer_clear (snd (govern 100 s)).
Proof.
  intros s.
  assert (H0 : 0 <= buffer_clear_interval s) by (simpl; lra).
  assert (H1 : 100.03 - 100 < buffer_clear_interval s) by (simpl; lra).
  destruct (C6_governance_throttled 100 100.03 s H0 H1) as (Hnoop & Hmono & _).
  split; [| exact Hmono].
  destruct (Hnoop (snd (govern 100 s)) (serial_port (snd (govern 100 s))))
    as [_ Hrun]; [reflexivity | reflexivity |].
  exact Hrun.
Defined.

(** ** Manual buffer clear (on_key_press, lines 361-365) *)

(** C9, as stated, fails: in demo mode with a port open (demo mode
    entered with the D key) the B key still flushes the port. *)
Lemma C9_manual_clear_in_demo_mode :
  let s := set_demo_mode true (connected_to (healthy_port (wire_line "1.0,2.0,3.0"))) in
  live s = false /\ demo_mode s = true /\
  pending s = 12%nat /\
  pending (snd (on_key_press (Some "b") s)) = 0%nat /\
  stdout (snd (on_key_press (Some "b") s)) = [MsgManualClear] /\
  snd (on_key_press (Some "b") s) <> s.
Proof.
  repeat split. vm_compute. discriminate.
Qed.

(** C9, amended: the B key flushes the port whenever the object holds a
    port, whatever the mode -- it runs [clear_serial_buffer], prints the
    manual-clear message and returns -- and it has no effect at all when
    there is no port. *)
Theorem C9_manual_clear_needs_a_port (s : RealTimeIMU) :
  (serial_port s = None -> on_key_press (Some "b") s = (Ret tt, s)) /\
  (forall p, serial_port s = Some p ->
     on_key_press (Some "b") s =
       (Ret tt,
        set_stdout (stdout (snd (clear_serial_buffer s)) ++ [MsgManualClear])
                   (snd (clear_serial_buffer s)))).
Proof.
  split.
  - intros Hp. unfold on_key_press. simpl. unfold bind, gets. now rewrite Hp.
  - intros p Hp. unfold on_key_press. simpl. unfold bind at 1, gets at 1.
    rewrite Hp. unfold bind.
    pose proof (clear_serial_buffer_returns s) as Hret.
    destruct (clear_serial_buffer s) as [o s1]. simpl in Hret. subst o.
    reflexivity.
Qed.

(** Without a port the B key changes nothing; with the two lines in
    flight it discards both and reports the manual clear. *)
Lemma C9_manual_clear_needs_a_port_witness :
  on_key_press (Some "b") (set_demo_mode true initial)
    = (Ret tt, set_demo_mode true initial) /\
  stdout (snd (on_key_press (Some "b") two_in_flight)) =
    [MsgDiscarded 2; MsgManualClear].
Proof.
  split.
  - apply (proj1 (C9_manual_clear_needs_a_port (set_demo_mode true initial))).
    reflexivity.
  - rewrite (proj2 (C9_manual_clear_needs_a_port two_in_flight)
               (mkSerial [] (wire_line "1.0,2.0,3.0" ++ wire_line "4.0,5.0,6.0")
                         0.01 None) eq_refl).
    vm_compute. reflexivity.
Defined.

(** ** Frames of whole methods *)

Section MethodFrames.

Context {runtime : PyRuntime}.
Context {B : Type} (f : RealTimeIMU -> B).

(** An observation that the read path cannot change: it does not look at
    the port content, the output, the orientation, the packet counter or
    the two timestamps. *)
Hypothesis f_io : forall A (op : Serial -> (exn + A) * Serial), keeps f (on_port op).
Hypothesis f_stdout : forall out s, f (set_stdout out s) = f s.
Hypothesis f_rotX : forall v s, f (set_rotX v s) = f s.
Hypothesis f_rotY : forall v s, f (set_rotY v s) = f s.
Hypothesis f_rotZ : forall v s, f (set_rotZ v s) = f s.
Hypothesis f_data_count : forall v s, f (set_data_count v s) = f s.
Hypothesis f_last_data_time : forall v s, f (set_last_data_time v s) = f s.
Hypothesis f_last_buffer_clear : forall v s, f (set_last_buffer_clear v s) = f s.
Hypothesis f_demo_time : forall v s, f (set_demo_time v s) = f s.

Lemma keeps_govern (t : Q) : keeps f (govern t).
Proof.
  unfold govern.
  apply keeps_bind; [apply keeps_gets | intros due].
  apply keeps_when.
  apply keeps_bind; [apply f_io | intros n].
  apply keeps_bind; [apply keeps_gets | intros limit].
  apply keeps_bind; [| intros _; apply keeps_modify; intros; apply f_last_buffer_clear].
  apply keeps_when.
  apply keeps_bind; [apply f_io | intros n'].
  apply keeps_bind; [apply keeps_print, f_stdout | intros _].
  apply keeps_clear_serial_buffer; assumption.
Qed.

Lemma keeps_float_field (values : list string) (i : nat) :
  keeps f (float_field values i).
Proof.
  unfold float_field. destruct (py_float _); [apply keeps_ret | apply keeps_raise].
Qed.

Lemma keeps_process_latest (t : Q) latest_data packets_discarded :
  keeps f (process_latest t latest_data packets_discarded).
Proof.
  unfold process_latest.
  destruct latest_data as [latest |]; [| apply keeps_ret].
  destruct (PyText.truthy latest); [| apply keeps_ret].
  apply keeps_bind; [apply keeps_when, keeps_print, f_stdout | intros _].
  destruct (3 <=? _)%nat; [| apply keeps_ret].
  apply keeps_try.
  - apply keeps_bind; [apply keeps_float_field | intros v0].
    apply keeps_bind; [apply keeps_modify; intros; apply f_rotY | intros _].
    apply keeps_bind; [apply keeps_float_field | intros v1].
    apply keeps_bind; [apply keeps_modify; intros; apply f_rotX | intros _].
    apply keeps_bind; [apply keeps_float_field | intros v2].
    apply keeps_bind; [apply keeps_modify; intros; apply f_rotZ | intros _].
    apply keeps_bind; [apply keeps_modify; intros; apply f_data_count | intros _].
    apply keeps_bind; [apply keeps_modify; intros; apply f_last_data_time | intros _].
    apply keeps_bind; [apply keeps_gets | intros count].
    apply keeps_bind; [| intros _; apply keeps_ret].
    apply keeps_when.
    apply keeps_bind; [apply keeps_gets | intros s0].
    apply keeps_print, f_stdout.
  - intros e. apply keeps_bind; [apply keeps_print, f_stdout | intros _].
    apply keeps_ret.
Qed.

Lemma keeps_read_latest_serial_data (t : Q) :
  keeps f (read_latest_serial_data t).
Proof.
  unfold read_latest_serial_data.
  apply keeps_bind; [apply keeps_gets | intros connected].
  apply keeps_bind; [apply keeps_gets | intros port].
  destruct connected; [| apply keeps_ret].
  destruct port as [p |]; [| apply keeps_ret].
  apply keeps_try.
  - apply keeps_bind; [apply keeps_govern | intros _].
    apply keeps_bind; [apply keeps_select_latest; assumption | intros latest].
    apply keeps_process_latest.
  - intros e. apply keeps_bind; [apply keeps_print, f_stdout | intros _].
    apply keeps_ret.
Qed.

Lemma keeps_update_demo : keeps f update_demo.
Proof.
  unfold update_demo.
  apply keeps_bind; [apply keeps_modify; intros; apply f_demo_time | intros _].
  apply keeps_bind; [apply keeps_modify; intros; apply f_rotX | intros _].
  apply keeps_bind; [apply keeps_modify; intros; apply f_rotY | intros _].
  apply keeps_modify; intros; apply f_rotZ.
Qed.

Lemma keeps_update_plot (t now : Q) : keeps f (update_plot t now).
Proof.
  unfold update_plot, update_rotations.
  apply keeps_bind.
  - apply keeps_bind; [apply keeps_gets | intros is_live].
    destruct is_live; [| apply keeps_update_demo].
    apply keeps_bind; [apply keeps_read_latest_serial_data | intros _].
    apply keeps_ret.
  - intros _.
    apply keeps_bind; [apply keeps_draw_realtime_cube; assumption | intros tn].
    apply keeps_bind; [apply keeps_draw_ui_panels; assumption | intros panel].
    apply keeps_ret.
Qed.

(** If moreover the observation does not look at [demo_mode], no key
    changes it either. *)
Hypothesis f_demo_mode : forall v s, f (set_demo_mode v s) = f s.

Lemma keeps_on_key_press (key : option string) : keeps f (on_key_press key).
Proof.
  unfold on_key_press.
  destruct key as [k |]; [| apply keeps_ret].
  destruct (negb (PyText.truthy k)); [apply keeps_ret |].
  destruct (String.eqb (PyText.lower k) "r").
  { apply keeps_bind; [apply keeps_modify; intros; apply f_rotX | intros _].
    apply keeps_bind; [apply keeps_modify; intros; apply f_rotY | intros _].
    apply keeps_bind; [apply keeps_modify; intros; apply f_rotZ | intros _].
    apply keeps_print, f_stdout. }
  destruct (String.eqb (PyText.lower k) "d").
  { apply keeps_bind; [apply keeps_modify; intros; apply f_demo_mode | intros _].
    apply keeps_bind; [apply keeps_gets | intros on].
    apply keeps_print, f_stdout. }
  destruct (String.eqb (PyText.lower k) "b"); [| apply keeps_ret].
  apply keeps_bind; [apply keeps_gets | intros port].
  destruct port as [p |]; [| apply keeps_ret].
  apply keeps_bind; [apply keeps_clear_serial_buffer; assumption | intros _].
  apply keeps_print, f_stdout.
Qed.

Lemma keeps_handle (ev : event) (s : RealTimeIMU) : f (handle ev s) = f s.
Proof.
  destruct ev as [t now | key]; simpl.
  - apply keeps_update_plot.
  - apply keeps_on_key_press.
Qed.

Lemma keeps_run (evs : list event) (s : RealTimeIMU) : f (run evs s) = f s.
Proof.
  revert s. unfold run.
  induction evs as [| ev evs IH]; intros s; simpl; [reflexivity |].
  rewrite IH. apply keeps_handle.
Qed.

End MethodFrames.

(** ** A failed open (init_serial, lines 100-103; update_plot, lines 331-338) *)

Section ModeProperties.

Context {runtime : PyRuntime}.

Lemma update_demo_run (s : RealTimeIMU) :
  fst (update_demo s) = Ret tt /\
  serial_port (snd (update_demo s)) = serial_port s /\
  live (snd (update_demo s)) = live s.
Proof. repeat split. Qed.

(** With no port, a frame is drawn without any call on a port. *)
Lemma update_plot_without_port (t now : Q) (s : RealTimeIMU) :
  serial_port s = None -> live s = false ->
  exists fr, update_plot t now s = (Ret fr, snd (update_demo s)) /\
             frame_buffer_size fr = 0%nat.
Proof.
  intros Hport Hlive.
  unfold update_plot, update_rotations.
  unfold bind at 1. unfold bind at 1. unfold gets at 1. rewrite Hlive.
  destruct (update_demo s) as [o s1] eqn:Hdemo.
  pose proof (update_demo_run s) as (Ho & Hp & _).
  rewrite Hdemo in Ho, Hp. simpl in Ho, Hp. subst o. rewrite Hport in Hp.
  unfold draw_realtime_cube, draw_ui_panels, buffer_size, bind, gets.
  rewrite Hp. simpl. rewrite Hp. simpl. eexists. split; reflexivity.
Qed.

(** C8: when opening the port raises, [init_serial] returns normally
    with [demo_mode] set, [serial_connected] false and no port; and after
    any sequence of ticks and key presses the next tick still takes the
    demo branch and is drawn without a call on a port. *)
Theorem C8_failed_open_runs_simulated (e : exn) (evs : list event) (t now : Q) :
  init_serial true (inl e) initial = (Ret tt, failed_open e) /\
  demo_mode (failed_open e) = true /\
  serial_connected (failed_open e) = false /\
  serial_port (failed_open e) = None /\
  serial_port (run evs (failed_open e)) = None /\
  live (run evs (failed_open e)) = false /\
  update_rotations t (run evs (failed_open e)) = update_demo (run evs (failed_open e)) /\
  exists fr, update_plot t now (run evs (failed_open e))
               = (Ret fr, snd (update_demo (run evs (failed_open e)))) /\
             frame_buffer_size fr = 0%nat.
Proof.
  assert (Hport : serial_port (run evs (failed_open e)) = None).
  { assert (H : has_port (run evs (failed_open e)) = has_port (failed_open e)).
    { apply keeps_run; try (intros; reflexivity).
      intros A op. apply keeps_has_port_on_port. }
    unfold has_port in H. simpl in H.
    destruct (serial_port (run evs (failed_open e))); [discriminate | reflexivity]. }
  assert (Hconn : serial_connected (run evs (failed_open e)) = false).
  { rewrite (keeps_run serial_connected); try (intros; reflexivity).
    intros A op. apply keeps_on_port. reflexivity. }
  assert (Hlive : live (run evs (failed_open e)) = false).
  { unfold live. now rewrite Hconn. }
  repeat split; try assumption.
  - unfold update_rotations, bind, gets. now rewrite Hlive.
  - now apply update_plot_without_port.
Qed.

End ModeProperties.

(** ** Live mode is kept (update_plot, lines 331-338; on_key_press, lines 356-359) *)

Lemma bind_assoc {A C D} (m : M A) (k : A -> M C) (h : C -> M D) s :
  bind (bind m k) h s = bind m (fun a => bind (k a) h) s.
Proof.
  unfold bind. destruct (m s) as [[a | e |] s1]; reflexivity.
Qed.

Lemma on_port_not_out_of_fuel {A} (op : Serial -> (exn + A) * Serial) s :
  fst (on_port op s) <> OutOfFuel.
Proof.
  unfold on_port. destruct (serial_port s) as [p |]; [| discriminate].
  destruct (op p) as [[e | a] p']; discriminate.
Qed.

Lemma keeps_orientation_read_path (t : Q) : keeps orientation (read_path t).
Proof.
  unfold read_path.
  apply keeps_bind; [| intros _].
  - apply keeps_govern; frame_side.
  - apply keeps_select_latest; frame_side.
Qed.

Lemma port_in_waiting_pending (s : RealTimeIMU) :
  pending (snd (port_in_waiting s)) = pending s.
Proof.
  unfold port_in_waiting, on_port, pending.
  destruct (serial_port s) as [p |] eqn:Hp; simpl; [| now rewrite Hp].
  destruct (in_waiting_cases p) as [-> | (q & -> & Hbuf & _)]; simpl.
  - reflexivity.
  - now rewrite Hbuf.
Qed.

(** With nothing pending the periodic check leaves nothing pending. *)
Lemma govern_empty (t : Q) (s : RealTimeIMU) :
  pending s = 0%nat ->
  pending (snd (govern t s)) = 0%nat /\ fst (govern t s) <> OutOfFuel.
Proof.
  intros Hempty.
  destruct (governance_due t s) eqn:Hdue;
    [| rewrite govern_not_due by assumption; split; [assumption | discriminate]].
  remember (govern t s) as r eqn:Hr.
  unfold govern, bind at 1, gets at 1 in Hr. rewrite Hdue in Hr.
  unfold when at 1, bind at 1 in Hr.
  pose proof (port_in_waiting_pending s) as Hp.
  pose proof (on_port_not_out_of_fuel Port.in_waiting s) as Hf.
  fold port_in_waiting in Hf.
  destruct (port_in_waiting s) as [[n | e |] s1] eqn:Hn; simpl in *.
  - apply port_in_waiting_Ret in Hn as [-> _]. rewrite Hempty in Hr.
    unfold bind, gets, when in Hr. simpl in Hr. subst r. simpl.
    split; [| discriminate].
    change (pending s1 = 0%nat). congruence.
  - subst r. simpl. split; [congruence | discriminate].
  - contradiction.
Qed.

Lemma select_latest_empty (s : RealTimeIMU) :
  pending s = 0%nat ->
  (exists e, fst (select_latest s) = Raise e) \/
  fst (select_latest s) = Ret (None, 0%nat).
Proof.
  intros Hempty.
  remember (select_latest s) as r eqn:Hr.
  unfold select_latest, bind at 1 in Hr.
  destruct (pending_fuel_enough s) as (fuel & Hfuel_eq & Hfuel).
  rewrite Hfuel_eq in Hr.
  destruct fuel as [| fuel]; [lia |]. simpl in Hr. unfold bind at 1 in Hr.
  pose proof (on_port_not_out_of_fuel Port.in_waiting s) as Hf.
  fold port_in_waiting in Hf.
  destruct (port_in_waiting s) as [[n | e |] s1] eqn:Hn; simpl in *.
  - apply port_in_waiting_Ret in Hn as [-> _]. rewrite Hempty in Hr.
    simpl in Hr. subst r. now right.
  - subst r. left. now exists e.
  - contradiction.
Qed.

(** An empty poll yields no candidate line. *)
Lemma read_path_empty (t : Q) (s : RealTimeIMU) :
  pending s = 0%nat ->
  (exists e, fst (read_path t s) = Raise e) \/
  fst (read_path t s) = Ret (None, 0%nat).
Proof.
  intros Hempty.
  remember (read_path t s) as r eqn:Hr.
  unfold read_path, bind in Hr.
  destruct (govern_empty t s Hempty) as [Hp Hf].
  destruct (govern t s) as [[u | e |] s1]; simpl in *.
  - subst r. now apply select_latest_empty.
  - subst r. left. now exists e.
  - contradiction.
Qed.

Section LiveMode.

Context {runtime : PyRuntime}.

Lemma read_latest_by_read_path (t : Q) (s : RealTimeIMU) (p : Serial) :
  serial_connected s = true -> serial_port s = Some p ->
  read_latest_serial_data t s =
    try_except
      (bind (read_path t)
            (fun latest => process_latest t (fst latest) (snd latest)))
      any_exception
      (fun e => bind (print (MsgSerialReadError e)) (fun _ => ret false)) s.
Proof.
  intros Hc Hp. unfold read_latest_serial_data.
  unfold bind at 1, gets at 1. unfold bind at 1, gets at 1.
  rewrite Hc, Hp. unfold try_except, read_path.
  now rewrite bind_assoc.
Qed.

(** A read that obtains no candidate line leaves the orientation alone. *)
Lemma read_without_candidate (t : Q) (s : RealTimeIMU) :
  (exists e, fst (read_path t s) = Raise e) \/
  (exists k, fst (read_path t s) = Ret (None, k)) ->
  orientation (snd (read_latest_serial_data t s)) = orientation s.
Proof.
  intros Hread.
  destruct (serial_connected s) eqn:Hc;
    [| unfold read_latest_serial_data, bind, gets; now rewrite Hc].
  destruct (serial_port s) as [p |] eqn:Hp;
    [| unfold read_latest_serial_data, bind, gets; now rewrite Hc, Hp].
  rewrite (read_latest_by_read_path t s p Hc Hp).
  pose proof (keeps_orientation_read_path t s) as Hkeep.
  unfold try_except, bind at 1.
  destruct (read_path t s) as [o s1]; simpl in *.
  destruct Hread as [[e ->] | [k ->]]; simpl; exact Hkeep.
Qed.

(** C7, amended: a tick in live mode leaves the mode live, whatever the
    read yields; and when the read yields no candidate line -- nothing
    pending (empty poll), only blank input, or an exception before any
    line was captured, be it caught inside the loop or by the outer
    handler -- the orientation is the same after the tick. *)
Theorem C7_live_tick_keeps_mode_and_state (t now : Q) (s : RealTimeIMU) :
  live s = true ->
  live (snd (update_plot t now s)) = true /\
  demo_mode (snd (update_plot t now s)) = false /\
  (pending s = 0%nat \/
   (exists e, fst (read_path t s) = Raise e) \/
   (exists k, fst (read_path t s) = Ret (None, k)) ->
   orientation (snd (update_plot t now s)) = orientation s).
Proof.
  intros Hlive.
  assert (Hmode : live (snd (update_plot t now s)) = true).
  { rewrite (keeps_update_plot live); try (intros; reflexivity); [assumption |].
    intros A op. apply keeps_on_port. reflexivity. }
  split; [exact Hmode | split].
  - unfold live in Hmode. apply andb_prop in Hmode as [_ Hd].
    now destruct (demo_mode (snd (update_plot t now s))).
  - intros Hread.
    assert (Hnone : (exists e, fst (read_path t s) = Raise e) \/
                    (exists k, fst (read_path t s) = Ret (None, k))).
    { destruct Hread as [Hempty | [Herr | Hnone]].
      - destruct (read_path_empty t s Hempty) as [Herr | Hnone];
          [now left | right; now exists 0%nat].
      - now left.
      - now right. }
    assert (Hdraw : keeps orientation
                      (bind (draw_realtime_cube now) (fun tn =>
                       bind draw_ui_panels (fun panel =>
                       ret (mkFrame (fst tn) (snd tn) panel))))).
    { apply keeps_bind; [apply keeps_draw_realtime_cube; frame_side | intros tn].
      apply keeps_bind; [apply keeps_draw_ui_panels; frame_side | intros panel].
      apply keeps_ret. }
    unfold update_plot, bind at 1, update_rotations.
    unfold bind at 1, gets at 1. rewrite Hlive.
    pose proof (read_without_candidate t s Hnone) as Hkeep.
    unfold bind at 1.
    destruct (read_latest_serial_data t s) as [[b | e |] s1]; simpl in *.
    + rewrite (Hdraw s1). exact Hkeep.
    + exact Hkeep.
    + exact Hkeep.
Qed.

(** The mode changes by the D key. *)
Lemma d_key_toggles_demo_mode (s : RealTimeIMU) :
  demo_mode (snd (on_key_press (Some "d") s)) = negb (demo_mode s) /\
  serial_connected (snd (on_key_press (Some "d") s)) = serial_connected s.
Proof. split; reflexivity. Qed.

End LiveMode.

(** C7, as stated, fails for the orientation: a read that times out on
    an unterminated line returns the bytes received so far, and a decode
    error or a failure of the link at a [readline] keeps the line
    captured before it; in each of these ticks that line is parsed and
    assigned.  The mode stays live. *)
Lemma C7_timeout_or_read_error_can_update :
  (live unterminated_sample = true /\
   existsb (Byte.eqb PyText.LF) (list_byte_of_string "1.0,2.0,3") = false /\
   orientation unterminated_sample = (0, 0, 0) /\
   orientation (snd (update_plot (runtime := Decimal.runtime) 100 100
                       unterminated_sample)) = (2, 1, 3) /\
   live (snd (update_plot (runtime := Decimal.runtime) 100 100
                unterminated_sample)) = true) /\
  (live garbled_between_samples = true /\
   PyText.decode [xff; PyText.LF] = None /\
   orientation garbled_between_samples = (0, 0, 0) /\
   orientation (snd (update_plot (runtime := Decimal.runtime) 100 100
                       garbled_between_samples)) = (2, 1, 3) /\
   live (snd (update_plot (runtime := Decimal.runtime) 100 100
                garbled_between_samples)) = true) /\
  (live link_drops_mid_read = true /\
   fst (read_path 100 link_drops_mid_read) = Ret (Some "1.0,2.0,3.0", 0%nat) /\
   orientation link_drops_mid_read = (0, 0, 0) /\
   orientation (snd (update_plot (runtime := Decimal.runtime) 100 100
                       link_drops_mid_read)) = (2, 1, 3) /\
   live (snd (update_plot (runtime := Decimal.runtime) 100 100
                link_drops_mid_read)) = true).
Proof.
  repeat split; vm_compute; reflexivity.
Qed.

(** A live tick on an empty buffer: still live, roll still 5. *)
Lemma C7_live_tick_keeps_mode_and_state_witness :
  let s := set_rotX 5 (connected_to (healthy_port [])) in
  live (snd (update_plot (runtime := Decimal.runtime) 100 100 s)) = true /\
  orientation (snd (update_plot (runtime := Decimal.runtime) 100 100 s))
    = orientation s.
Proof.
  intros s.
  destruct (C7_live_tick_keeps_mode_and_state (runtime := Decimal.runtime)
              100 100 s eq_refl) as (Hlive & _ & Hkeep).
  split; [exact Hlive |].
  apply Hkeep. left. reflexivity.
Defined.

(** ** Malformed packets (read_latest_serial_data, lines 170-189) *)

Lemma set_serial_port_same (s : RealTimeIMU) (p : Serial) :
  serial_port s = Some p -> set_serial_port (Some p) s = s.
Proof. destruct s; simpl; intros ->; reflexivity. Qed.

(** On a healthy link with no more than [max_buffer_size] bytes pending
    the periodic check at most moves [last_buffer_clear]. *)
Lemma govern_small_backlog (t : Q) (s : RealTimeIMU) (p : Serial) :
  serial_port s = Some p -> healthy_calls p = None ->
  (List.length (in_buffer p) <= max_buffer_size s)%nat ->
  govern t s = (Ret tt, s) \/ govern t s = (Ret tt, set_last_buffer_clear t s).
Proof.
  intros Hp Hh Hsmall.
  destruct (governance_due t s) eqn:Hdue; [right | left; now apply govern_not_due].
  unfold govern, bind at 1, gets at 1. rewrite Hdue.
  unfold when at 1, bind at 1, port_in_waiting.
  rewrite (on_port_some Port.in_waiting s p Hp).
  unfold Port.in_waiting, Port.io. rewrite Hh. simpl.
  rewrite (set_serial_port_same s p Hp).
  unfold bind, gets.
  apply Nat.ltb_ge in Hsmall. rewrite Hsmall. reflexivity.
Qed.

Section Malformed.

Context {runtime : PyRuntime}.

Local Arguments Nat.modulo : simpl never.

(** What does hold of a rejected line: the acceptance timestamp and the
    packet counter stay. *)
Lemma rejected_keeps_timestamp (t : Q) latest_data packets_discarded (s s' : RealTimeIMU) :
  process_latest t latest_data packets_discarded s = (Ret false, s') ->
  last_data_time s' = last_data_time s /\ data_count s' = data_count s.
Proof.
  unfold process_latest.
  destruct latest_data as [latest |]; [| intros H; inversion H; now subst].
  destruct (PyText.truthy latest); [| intros H; inversion H; now subst].
  destruct (3 <=? List.length (PyText.split "," latest))%nat;
    unfold float_field, try_except, bind, when, modify, print, gets, raise, ret;
    destruct (0 <? packets_discarded)%nat; simpl;
    try (intros H; inversion H; now subst).
  all: destruct (py_float (nth 0 (PyText.split "," latest) ""));
    simpl; try (intros H; inversion H; now subst).
  all: destruct (py_float (nth 1 (PyText.split "," latest) ""));
    simpl; try (intros H; inversion H; now subst).
  all: destruct (py_float (nth 2 (PyText.split "," latest) ""));
    simpl; try (intros H; inversion H; now subst).
  all: destruct ((data_count s + 1) mod 50 =? 0)%nat; simpl; intros H; inversion H.
Qed.

(** A line with fewer than three fields, or whose first field is not a
    number, changes no angle. *)
Lemma rejected_early_keeps_orientation (t : Q) (latest : string)
      packets_discarded (s : RealTimeIMU) :
  (List.length (PyText.split "," latest) < 3)%nat \/
  py_float (nth 0 (PyText.split "," latest) "") = None ->
  fst (process_latest t (Some latest) packets_discarded s) = Ret false /\
  orientation (snd (process_latest t (Some latest) packets_discarded s))
    = orientation s.
Proof.
  intros Hbad. unfold process_latest.
  destruct (PyText.truthy latest); [| split; reflexivity].
  destruct (3 <=? List.length (PyText.split "," latest))%nat eqn:Hlen.
  - destruct Hbad as [Hfew | Hfirst]; [apply Nat.leb_le in Hlen; lia |].
    unfold float_field. rewrite Hfirst.
    unfold try_except, bind, when, modify, print, gets, raise, ret.
    destruct (0 <? packets_discarded)%nat; simpl; split; reflexivity.
  - unfold bind, when, modify, print, ret.
    destruct (0 <? packets_discarded)%nat; simpl; split; reflexivity.
Qed.

End Malformed.

Lemma read_bad_second_field (current_time : Q) :
  exists last_clear,
    read_latest_serial_data (runtime := Decimal.runtime) current_time bad_second_field =
    (Ret false,
     mkIMU 0 1 0 false 0 (Some (healthy_port [])) true 0.05 last_clear 100 0
           0 [MsgParseError "1.0,abc,3.0"]).
Proof.
  unfold read_latest_serial_data.
  unfold bind at 1. unfold gets at 1. unfold bind at 1. unfold gets at 1.
  change (serial_connected bad_second_field) with true.
  set (p := serial_port bad_second_field).
  assert (Hp : exists q, p = Some q) by (eexists; reflexivity).
  destruct Hp as [q ->].
  cbv beta iota.
  unfold try_except. unfold bind at 1.
  destruct (govern_small_backlog current_time bad_second_field
              (healthy_port (wire_line "1.0,abc,3.0")) eq_refl eq_refl) as [H | H];
    [vm_compute; lia | |]; rewrite H;
    cbv beta iota; eexists; vm_compute; reflexivity.
Qed.

(** C2 against the code: the line "1.0,abc,3.0" is rejected (the read
    returns False and prints the parse error, the timestamp stays 0),
    yet [rotY] has already been overwritten with 1.0: the orientation
    is not what it was before the call. *)
Theorem C2_rejected_line_overwrites_pitch (current_time : Q) :
  orientation bad_second_field = (0, 0, 0) /\
  exists s',
    read_latest_serial_data (runtime := Decimal.runtime) current_time bad_second_field
      = (Ret false, s') /\
    rotY s' == 1.0 /\
    orientation s' <> orientation bad_second_field /\
    last_data_time s' = last_data_time bad_second_field /\
    stdout s' = [MsgParseError "1.0,abc,3.0"].
Proof.
  split; [reflexivity |].
  destruct (read_bad_second_field current_time) as [last_clear ->].
  eexists. split; [reflexivity |]. simpl.
  split; [reflexivity |]. split; [discriminate |]. split; reflexivity.
Qed.

(** ** Latest line wins (read_latest_serial_data, lines 151-163) *)

Lemma last_cons_default {A} (a d : A) (l : list A) : last (a :: l) d = last l a.
Proof.
  revert a d. induction l as [| x l IH]; intros a d; [reflexivity |].
  change (last (a :: x :: l) d) with (last (x :: l) d).
  now rewrite (IH x d), (IH x a).
Qed.

Lemma keep_latest_some (texts : list string) (l : string) (pd : nat) :
  keep_latest texts (Some l) pd =
    (Some (last (filter PyText.truthy texts) l),
     (pd + List.length (filter PyText.truthy texts))%nat).
Proof.
  revert l pd. induction texts as [| text rest IH]; intros l pd; simpl.
  - f_equal. lia.
  - destruct (PyText.truthy text).
    + rewrite IH. rewrite last_cons_default. simpl. f_equal. lia.
    + apply IH.
Qed.

Lemma keep_latest_none (texts : list string) :
  filter PyText.truthy texts <> [] ->
  keep_latest texts None 0 =
    (Some (last (filter PyText.truthy texts) ""),
     (List.length (filter PyText.truthy texts) - 1)%nat).
Proof.
  induction texts as [| text rest IH]; intros Hne; simpl in *; [contradiction |].
  destruct (PyText.truthy text).
  - rewrite keep_latest_some, last_cons_default. simpl. f_equal. lia.
  - now apply IH.
Qed.

Lemma take_line_app (body rest : list byte) :
  ~ In PyText.LF body ->
  Port.take_line (body ++ PyText.LF :: rest) = (body ++ [PyText.LF], rest).
Proof.
  induction body as [| b body IH]; intros Hno; simpl.
  - reflexivity.
  - destruct (Byte.eqb b PyText.LF) eqn:Hb.
    + exfalso. apply Hno. left. symmetry. now apply Byte.byte_dec_bl.
    + rewrite IH; [reflexivity |]. intros Hin. apply Hno. now right.
Qed.

Lemma on_wire_length (bodies : list (list byte)) :
  (List.length bodies <= List.length (on_wire bodies))%nat.
Proof.
  induction bodies as [| b rest IH]; simpl; [lia |].
  unfold on_wire in *. simpl. rewrite !length_app. simpl. lia.
Qed.

Lemma in_waiting_healthy (s : RealTimeIMU) (p : Serial) :
  serial_port s = Some p -> healthy_calls p = None ->
  port_in_waiting s = (Ret (List.length (in_buffer p)), s).
Proof.
  intros Hp Hh. unfold port_in_waiting.
  rewrite (on_port_some Port.in_waiting s p Hp).
  unfold Port.in_waiting, Port.io. rewrite Hh. simpl.
  now rewrite (set_serial_port_same s p Hp).
Qed.

Lemma read_stripped_line_healthy (s : RealTimeIMU) (p : Serial)
      (body rest : list byte) :
  serial_port s = Some p -> healthy_calls p = None ->
  in_buffer p = body ++ PyText.LF :: rest ->
  ~ In PyText.LF body ->
  PyText.utf8_valid (body ++ [PyText.LF]) = true ->
  read_stripped_line s =
    (Ret (line_text body),
     set_serial_port (Some (mkSerial rest (in_flight p) (timeout p) None)) s).
Proof.
  intros Hp Hh Hbuf Hno Hvalid.
  unfold read_stripped_line, bind, port_readline.
  rewrite (on_port_some Port.readline s p Hp).
  unfold Port.readline, Port.io. rewrite Hh, Hbuf.
  rewrite (take_line_app body rest Hno). simpl.
  unfold PyText.decode. rewrite Hvalid. reflexivity.
Qed.

Lemma drain_latest_lines (bodies : list (list byte)) :
  forall fuel latest_data packets_discarded s p,
    serial_port s = Some p -> healthy_calls p = None ->
    in_buffer p = on_wire bodies ->
    Forall wire_ok bodies ->
    (List.length bodies <= fuel)%nat ->
    fst (drain_latest fuel latest_data packets_discarded s) =
      Ret (keep_latest (map line_text bodies) latest_data packets_discarded).
Proof.
  induction bodies as [| body rest IH];
    intros fuel latest_data packets_discarded s p Hp Hh Hbuf Hok Hfuel.
  - assert (Hstep : forall n, (0 <? n)%nat = false ->
              port_in_waiting s = (Ret n, s) ->
              fst (drain_latest fuel latest_data packets_discarded s)
                = Ret (latest_data, packets_discarded)).
    { intros n Hn Hw. destruct fuel; simpl; unfold bind; rewrite Hw, Hn; reflexivity. }
    apply (Hstep (List.length (in_buffer p))).
    + rewrite Hbuf. reflexivity.
    + now apply in_waiting_healthy.
  - destruct fuel as [| fuel]; [simpl in Hfuel; lia |].
    inversion Hok as [| ? ? [Hno Hvalid] Hok']; subst.
    assert (Hbuf' : in_buffer p = body ++ PyText.LF :: on_wire rest).
    { rewrite Hbuf. unfold on_wire. simpl. now rewrite <- app_assoc. }
    simpl drain_latest. unfold bind at 1.
    rewrite (in_waiting_healthy s p Hp Hh).
    assert (Hpos : (0 <? List.length (in_buffer p))%nat = true).
    { apply Nat.ltb_lt. rewrite Hbuf', length_app. simpl. lia. }
    rewrite Hpos.
    unfold bind at 1, try_except. unfold bind at 1.
    rewrite (read_stripped_line_healthy s p body (on_wire rest) Hp Hh Hbuf' Hno Hvalid).
    unfold ret at 1. cbv beta iota.
    set (s2 := set_serial_port
                 (Some (mkSerial (on_wire rest) (in_flight p) (timeout p) None)) s).
    change (map line_text (body :: rest)) with (line_text body :: map line_text rest).
    cbn [keep_latest].
    destruct (PyText.truthy (line_text body));
      apply (IH fuel _ _ s2 (mkSerial (on_wire rest) (in_flight p) (timeout p) None));
      try reflexivity; try assumption; simpl in Hfuel; lia.
Qed.

(** [strip] beyond ASCII: a line holding only U+00A0 (bytes C2 A0) is
    empty after [strip] and is skipped; U+200B (E2 80 8B) is no
    whitespace for Python and stays. *)
Example strip_beyond_ascii :
  line_text [xc2; xa0] = "" /\
  line_text [xe2; x80; x8b] = string_of_list_byte [xe2; x80; x8b] /\
  candidates [list_byte_of_string "1.0,2.0,3.0"; [xc2; xa0]] = ["1.0,2.0,3.0"].
Proof. repeat split. Qed.

(** C1: with the lines [bodies] pending on a healthy link, [N >= 1] of
    them non-empty once decoded and stripped, [select_latest] returns the
    last of those N as the candidate and N - 1 as the discard count;
    lines that are empty once stripped count for nothing. *)
Theorem C1_latest_line_wins (s : RealTimeIMU) (p : Serial)
        (bodies : list (list byte)) :
  serial_port s = Some p ->
  healthy_calls p = None ->
  in_buffer p = on_wire bodies ->
  Forall wire_ok bodies ->
  (1 <= List.length (candidates bodies))%nat ->
  fst (select_latest s) =
    Ret (Some (last (candidates bodies) ""),
         (List.length (candidates bodies) - 1)%nat).
Proof.
  intros Hp Hh Hbuf Hok Hn.
  unfold select_latest, bind, pending_fuel, gets. rewrite Hp.
  rewrite (drain_latest_lines bodies _ None 0%nat s p Hp Hh Hbuf Hok).
  - unfold candidates in *. apply f_equal, keep_latest_none.
    intros Hnil. rewrite Hnil in Hn. simpl in Hn. lia.
  - rewrite Hbuf. pose proof (on_wire_length bodies). lia.
Qed.

Lemma four_lines_ok : Forall wire_ok four_lines.
Proof.
  repeat constructor; try reflexivity;
    simpl; intros H; repeat (destruct H as [H | H]; [discriminate |]); exact H.
Defined.

(** Of the four lines two count; the later one is the candidate and one
    packet is discarded. *)
Lemma C1_latest_line_wins_witness :
  candidates four_lines = ["1.0,2.0,3.0"; "4.0,5.0,6.0"]%string /\
  fst (select_latest (connected_to (healthy_port (on_wire four_lines))))
    = Ret (Some "4.0,5.0,6.0"%string, 1%nat).
Proof.
  split; [reflexivity |].
  apply (C1_latest_line_wins
           (connected_to (healthy_port (on_wire four_lines)))
           (healthy_port (on_wire four_lines)) four_lines
           eq_refl eq_refl eq_refl four_lines_ok).
  vm_compute. lia.
Defined.

(** ** Every read comes back (read_latest_serial_data, lines 133-194) *)

Lemma ends_bind {A C} (m : M A) (k : A -> M C) :
  ends m -> (forall a, ends (k a)) -> ends (bind m k).
Proof.
  intros Hm Hk s. unfold bind. specialize (Hm s).
  destruct (m s) as [[a | e |] s1]; simpl in *;
    [apply Hk | discriminate | contradiction].
Qed.

Lemma ends_try {A} (m : M A) (catches : exn -> bool) (h : exn -> M A) :
  ends m -> (forall e, ends (h e)) -> ends (try_except m catches h).
Proof.
  intros Hm Hh s. unfold try_except. specialize (Hm s).
  destruct (m s) as [[a | e |] s1]; simpl in *;
    [discriminate | | contradiction].
  destruct (catches e); [apply Hh | discriminate].
Qed.

Lemma ends_when (b : bool) (m : M unit) : ends m -> ends (when b m).
Proof. intros Hm. destruct b; [exact Hm | discriminate]. Qed.

Lemma ends_on_port {A} (op : Serial -> (exn + A) * Serial) : ends (on_port op).
Proof. intros s. apply on_port_not_out_of_fuel. Qed.

Lemma ends_clear_serial_buffer : ends clear_serial_buffer.
Proof. intros s. now rewrite clear_serial_buffer_returns. Qed.

Lemma ends_govern (t : Q) : ends (govern t).
Proof.
  unfold govern.
  apply ends_bind; [discriminate | intros due].
  apply ends_when.
  apply ends_bind; [apply ends_on_port | intros n].
  apply ends_bind; [discriminate | intros limit].
  apply ends_bind; [| discriminate].
  apply ends_when.
  apply ends_bind; [apply ends_on_port | intros n'].
  apply ends_bind; [discriminate | intros _].
  apply ends_clear_serial_buffer.
Qed.

Section Totality.

Context {runtime : PyRuntime}.

Lemma ends_float_field (values : list string) (i : nat) :
  ends (float_field values i).
Proof. unfold float_field. destruct (py_float _); discriminate. Qed.

Lemma ends_process_latest (t : Q) latest_data packets_discarded :
  ends (process_latest t latest_data packets_discarded).
Proof.
  unfold process_latest.
  destruct latest_data as [latest |]; [| discriminate].
  destruct (PyText.truthy latest); [| discriminate].
  apply ends_bind; [apply ends_when; discriminate | intros _].
  destruct (3 <=? _)%nat; [| discriminate].
  apply ends_try.
  - apply ends_bind; [apply ends_float_field | intros v0].
    apply ends_bind; [discriminate | intros _].
    apply ends_bind; [apply ends_float_field | intros v1].
    apply ends_bind; [discriminate | intros _].
    apply ends_bind; [apply ends_float_field | intros v2].
    apply ends_bind; [discriminate | intros _].
    apply ends_bind; [discriminate | intros _].
    apply ends_bind; [discriminate | intros _].
    apply ends_bind; [discriminate | intros count].
    apply ends_bind; [| discriminate].
    apply ends_when. apply ends_bind; discriminate.
  - intros e. apply ends_bind; discriminate.
Qed.

(** The read never lets an exception out and never hangs on the pending
    bytes: it returns True or False. *)
Lemma read_latest_serial_data_returns (t : Q) (s : RealTimeIMU) :
  exists b, fst (read_latest_serial_data t s) = Ret b.
Proof.
  unfold read_latest_serial_data.
  unfold bind at 1, gets at 1. unfold bind at 1, gets at 1.
  destruct (serial_connected s); [| now exists false].
  destruct (serial_port s) as [p |]; [| now exists false].
  unfold try_except.
  assert (Hends : ends (bind (govern t) (fun _ =>
                        bind select_latest (fun latest =>
                        process_latest t (fst latest) (snd latest))))).
  { apply ends_bind; [apply ends_govern | intros _].
    apply ends_bind; [intros s0; apply select_latest_ends | intros latest].
    apply ends_process_latest. }
  specialize (Hends s).
  destruct (bind (govern t) _ s) as [[b | e |] s1]; simpl in *.
  - now exists b.
  - now exists false.
  - contradiction.
Qed.

End Totality.

(** * Further properties of the methods *)

(** ** The flush (clear_serial_buffer, lines 105-131) *)

Lemma keeps_buffered_in_waiting : keeps buffered port_in_waiting.
Proof.
  intros s. unfold port_in_waiting, on_port, buffered.
  destruct (serial_port s) as [p |] eqn:Hp; simpl; [| now rewrite Hp].
  destruct (in_waiting_cases p) as [-> | (q & -> & Hbuf & _)]; simpl.
  - reflexivity.
  - now rewrite Hbuf.
Qed.

(** The flush returns normally whatever the port does, and writes
    nothing but the port and the output. *)
Theorem flush_is_confined (s : RealTimeIMU) :
  fst (clear_serial_buffer s) = Ret tt /\
  beside_io (snd (clear_serial_buffer s)) = beside_io s /\
  has_port (snd (clear_serial_buffer s)) = has_port s.
Proof.
  split; [apply clear_serial_buffer_returns | split].
  - apply keeps_clear_serial_buffer; frame_side.
  - apply keeps_clear_serial_buffer; frame_side.
Qed.

Lemma clear_attempt_output (s : RealTimeIMU) :
  match clear_attempt s with
  | (Ret _, s') =>
      exists n, (n <= 51)%nat /\
                stdout s' = stdout s ++
                  (if (0 <? n)%nat then [MsgDiscarded n] else [])
  | (Raise _, s') => stdout s' = stdout s
  | (OutOfFuel, _) => False
  end.
Proof.
  pose proof (clear_attempt_ends s) as Hends.
  remember (clear_attempt s) as r eqn:Hr.
  unfold clear_attempt in Hr.
  assert (Hio : forall A (op : Serial -> (exn + A) * Serial) s0,
            stdout (snd (on_port op s0)) = stdout s0).
  { intros A op s0. apply (keeps_on_port stdout op). reflexivity. }
  unfold bind at 1 in Hr.
  pose proof (Hio _ Port.reset_input_buffer s) as H1.
  fold port_reset_input_buffer in H1.
  destruct (port_reset_input_buffer s) as [[u1 | e |] s1]; simpl in H1;
    [| subst r; exact H1 | subst r; now apply Hends].
  unfold bind at 1 in Hr.
  pose proof (Hio _ (fun p => (inr (timeout p), p)) s1) as H2.
  fold port_get_timeout in H2.
  destruct (port_get_timeout s1) as [[old | e |] s2]; simpl in H2;
    [| subst r; congruence | subst r; now apply Hends].
  unfold bind at 1 in Hr.
  pose proof (Hio _ (fun p => (inr tt, Port.set_timeout 0.001 p)) s2) as H3.
  fold (port_set_timeout 0.001) in H3.
  destruct (port_set_timeout 0.001 s2) as [[u3 | e |] s3]; simpl in H3;
    [| subst r; congruence | subst r; now apply Hends].
  unfold bind at 1 in Hr.
  destruct (pending_fuel_enough s3) as (fuel & Hfuel_eq & Hfuel).
  rewrite Hfuel_eq in Hr.
  unfold bind at 1 in Hr.
  pose proof (keeps_clear_loop stdout Hio fuel 0 s3) as H5.
  pose proof (clear_loop_bound fuel 0 s3) as Hbound.
  destruct (clear_loop fuel 0 s3) as [[n | e |] s5]; simpl in H5;
    [| subst r; congruence | subst r; now apply Hends].
  specialize (Hbound s5 n eq_refl).
  unfold bind in Hr.
  pose proof (Hio _ (fun p => (inr tt, Port.set_timeout old p)) s5) as H6.
  fold (port_set_timeout old) in H6.
  destruct (port_set_timeout old s5) as [[u6 | e |] s6]; simpl in H6;
    [| subst r; congruence | subst r; now apply Hends].
  unfold when, print, modify, ret in Hr.
  destruct (0 <? n)%nat eqn:Hpos; subst r; exists n; rewrite Hpos;
    (split; [lia |]); simpl; try rewrite app_nil_r; congruence.
Qed.

(** What one flush prints: nothing, or the number of lines it discarded,
    between 1 and 51, or the exception that stopped it. *)
Theorem flush_report (s : RealTimeIMU) :
  stdout (snd (clear_serial_buffer s)) = stdout s \/
  (exists n, (1 <= n <= 51)%nat /\
     stdout (snd (clear_serial_buffer s)) = stdout s ++ [MsgDiscarded n]) \/
  (exists e,
     stdout (snd (clear_serial_buffer s)) = stdout s ++ [MsgBufferClearError e]).
Proof.
  remember (clear_serial_buffer s) as r eqn:Hr.
  unfold clear_serial_buffer, bind, gets in Hr.
  destruct (serial_port s) as [p |]; [| subst r; now left].
  unfold try_except in Hr.
  pose proof (clear_attempt_output s) as Hout.
  destruct (clear_attempt s) as [[u | e |] s']; subst r; simpl.
  - destruct Hout as (n & Hn & Hout).
    destruct (0 <? n)%nat eqn:Hpos.
    + right. left. exists n. apply Nat.ltb_lt in Hpos. split; [lia | exact Hout].
    + left. rewrite Hout. apply app_nil_r.
  - right. right. exists e. now rewrite Hout.
  - contradiction.
Qed.

(** ** The periodic check and the backlog (read_latest_serial_data, lines 142-148) *)

(** As long as no more than [max_buffer_size] bytes are pending, the
    periodic check drops none of them, whatever the state of the link. *)
Theorem check_spares_small_backlog (t : Q) (s : RealTimeIMU) :
  (pending s <= max_buffer_size s)%nat ->
  buffered (snd (govern t s)) = buffered s.
Proof.
  intros Hsmall.
  destruct (governance_due t s) eqn:Hdue;
    [| now rewrite govern_not_due].
  remember (govern t s) as r eqn:Hr.
  unfold govern, bind at 1, gets at 1 in Hr. rewrite Hdue in Hr.
  unfold when at 1, bind at 1 in Hr.
  pose proof (keeps_buffered_in_waiting s) as Hbuf.
  pose proof (keeps_on_port max_buffer_size Port.in_waiting
                (fun _ _ => eq_refl) s) as Hmax.
  fold port_in_waiting in Hmax.
  destruct (port_in_waiting s) as [[n | e |] s1] eqn:Hn; simpl in *;
    [| subst r; exact Hbuf | subst r; exact Hbuf].
  apply port_in_waiting_Ret in Hn as [-> _].
  unfold bind at 1, gets at 1 in Hr. rewrite Hmax in Hr.
  apply Nat.ltb_ge in Hsmall. rewrite Hsmall in Hr.
  unfold when, bind, ret, modify in Hr. subst r. exact Hbuf.
Qed.

Lemma check_spares_small_backlog_witness :
  buffered (snd (govern 100 two_lines)) = buffered two_lines.
Proof.
  apply (check_spares_small_backlog 100 two_lines). vm_compute. lia.
Defined.

(** ** Freshness over time (draw_realtime_cube, lines 275-276) *)

(** With no new sample the marker only gets staler as time passes. *)
Theorem freshness_only_degrades (now1 now2 : Q) (s : RealTimeIMU) :
  now1 <= now2 ->
  (staleness (freshness now1 s) <= staleness (freshness now2 s))%nat.
Proof.
  intros Hle. unfold freshness, data_age.
  destruct (Qltb 0 (last_data_time s)); [| lia].
  unfold freshness_of_age.
  destruct (Qltb (now1 - last_data_time s) 0.5) eqn:H1;
  destruct (Qltb (now2 - last_data_time s) 0.5) eqn:H2;
  destruct (Qltb (now1 - last_data_time s) 2) eqn:H3;
  destruct (Qltb (now2 - last_data_time s) 2) eqn:H4; simpl; try lia;
    repeat match goal with
           | H : Qltb _ _ = true |- _ => apply Qltb_lt in H
           | H : Qltb _ _ = false |- _ => apply Qltb_ge in H
           end; lra.
Qed.

Lemma freshness_only_degrades_witness :
  (staleness (freshness 10.2 (set_last_data_time 10 initial)) <=
   staleness (freshness 11 (set_last_data_time 10 initial)))%nat.
Proof.
  apply (freshness_only_degrades 10.2 11 (set_last_data_time 10 initial)).
  lra.
Defined.

(** ** The keyboard (on_key_press, lines 344-368) *)

Lemma lower_ascii_idempotent (a : ascii) :
  PyText.lower_ascii (PyText.lower_ascii a) = PyText.lower_ascii a.
Proof.
  destruct a as [[] [] [] [] [] [] [] []]; reflexivity.
Qed.

Lemma lower_idempotent (k : string) :
  PyText.lower (PyText.lower k) = PyText.lower k.
Proof.
  induction k as [| a k IH]; simpl; [reflexivity |].
  now rewrite lower_ascii_idempotent, IH.
Qed.

Lemma truthy_lower (k : string) :
  PyText.truthy (PyText.lower k) = PyText.truthy k.
Proof. destruct k; reflexivity. Qed.

(** Keys are read without regard to case: a key and its lower-case form
    do the same. *)
Theorem keys_ignore_case (k : string) (s : RealTimeIMU) :
  on_key_press (Some (PyText.lower k)) s = on_key_press (Some k) s.
Proof.
  unfold on_key_press. now rewrite truthy_lower, lower_idempotent.
Qed.

(** A key event without a key, or with a key other than R, D and B,
    changes nothing of the object. *)
Theorem other_keys_do_nothing (key : option string) (s : RealTimeIMU) :
  match key with
  | None => True
  | Some k => PyText.lower k <> "r" /\ PyText.lower k <> "d" /\
              PyText.lower k <> "b"
  end ->
  on_key_press key s = (Ret tt, s).
Proof.
  destruct key as [k |]; [| reflexivity].
  intros (Hr & Hd & Hb). unfold on_key_press.
  destruct (negb (PyText.truthy k)); [reflexivity |].
  apply String.eqb_neq in Hr, Hd, Hb. now rewrite Hr, Hd, Hb.
Qed.

Lemma other_keys_do_nothing_witness :
  on_key_press (Some "escape") two_lines = (Ret tt, two_lines).
Proof.
  apply (other_keys_do_nothing (Some "escape") two_lines).
  repeat split; discriminate.
Defined.

(** Pressing D twice gives back the mode: of the whole object only the
    output differs, by the two mode messages. *)
Theorem toggle_twice_restores_mode (s : RealTimeIMU) :
  snd (on_key_press (Some "d") (snd (on_key_press (Some "d") s))) =
    set_stdout (stdout s ++ [MsgDemoMode (negb (demo_mode s));
                             MsgDemoMode (demo_mode s)]) s.
Proof.
  destruct s as [rx ry rz dm dt port conn interval last limit count ldt out].
  unfold on_key_press, bind, modify, gets, print. simpl.
  rewrite negb_involutive, <- app_assoc. reflexivity.
Qed.

(** ** Accepted samples (read_latest_serial_data, lines 166-190) *)

Section Accepting.

Context {runtime : PyRuntime}.

Local Arguments Nat.modulo : simpl never.

(** A line whose first three fields are numbers is accepted, whatever
    follows them: pitch, roll and yaw are assigned in that order, the
    packet is counted and stamped with the time of the read. *)
Theorem three_numbers_are_accepted (t : Q) (latest : string) (pd : nat)
        (s : RealTimeIMU) (v0 v1 v2 : Q) :
  PyText.truthy latest = true ->
  (3 <= List.length (PyText.split "," latest))%nat ->
  py_float (nth 0 (PyText.split "," latest) "") = Some v0 ->
  py_float (nth 1 (PyText.split "," latest) "") = Some v1 ->
  py_float (nth 2 (PyText.split "," latest) "") = Some v2 ->
  fst (process_latest t (Some latest) pd s) = Ret true /\
  orientation (snd (process_latest t (Some latest) pd s)) = (v1, v0, v2) /\
  data_count (snd (process_latest t (Some latest) pd s)) = (data_count s + 1)%nat /\
  last_data_time (snd (process_latest t (Some latest) pd s)) = t /\
  serial_port (snd (process_latest t (Some latest) pd s)) = serial_port s /\
  live (snd (process_latest t (Some latest) pd s)) = live s.
Proof.
  intros Htruthy Hlen H0 H1 H2.
  unfold process_latest. rewrite Htruthy.
  apply Nat.leb_le in Hlen. rewrite Hlen.
  unfold float_field. rewrite H0, H1, H2.
  unfold try_except, bind, when, modify, print, gets, ret.
  destruct (0 <? pd)%nat; simpl;
    destruct ((data_count s + 1) mod 50 =? 0)%nat; simpl; repeat split.
Qed.

Lemma process_latest_counts (t : Q) latest_data pd (s : RealTimeIMU) :
  data_count (snd (process_latest t latest_data pd s)) =
    (data_count s + (if accepted (fst (process_latest t latest_data pd s))
                     then 1 else 0))%nat /\
  last_data_time (snd (process_latest t latest_data pd s)) =
    (if accepted (fst (process_latest t latest_data pd s))
     then t else last_data_time s).
Proof.
  remember (process_latest t latest_data pd s) as r eqn:Hr.
  unfold process_latest in Hr.
  destruct latest_data as [latest |]; [| subst r; simpl; split; [lia | reflexivity]].
  destruct (PyText.truthy latest); [| subst r; simpl; split; [lia | reflexivity]].
  destruct (3 <=? List.length (PyText.split "," latest))%nat;
    unfold float_field, try_except, bind, when, modify, print, gets, raise, ret in Hr;
    destruct (0 <? pd)%nat; simpl in Hr;
    try (subst r; simpl; split; [lia | reflexivity]).
  all: destruct (py_float (nth 0 (PyText.split "," latest) ""));
    simpl in Hr; try (subst r; simpl; split; [lia | reflexivity]).
  all: destruct (py_float (nth 1 (PyText.split "," latest) ""));
    simpl in Hr; try (subst r; simpl; split; [lia | reflexivity]).
  all: destruct (py_float (nth 2 (PyText.split "," latest) ""));
    simpl in Hr; try (subst r; simpl; split; [lia | reflexivity]).
  all: destruct ((data_count s + 1) mod 50 =? 0)%nat; simpl in Hr;
    subst r; simpl; split; reflexivity.
Qed.

Lemma read_counts (t : Q) (s : RealTimeIMU) :
  data_count (snd (read_latest_serial_data t s)) =
    (data_count s + (if accepted (fst (read_latest_serial_data t s))
                     then 1 else 0))%nat /\
  last_data_time (snd (read_latest_serial_data t s)) =
    (if accepted (fst (read_latest_serial_data t s))
     then t else last_data_time s).
Proof.
  remember (read_latest_serial_data t s) as r eqn:Hr.
  destruct (serial_connected s) eqn:Hc;
    [| unfold read_latest_serial_data, bind, gets in Hr; rewrite Hc in Hr;
       subst r; simpl; split; [lia | reflexivity]].
  destruct (serial_port s) as [p |] eqn:Hp;
    [| unfold read_latest_serial_data, bind, gets in Hr; rewrite Hc, Hp in Hr;
       subst r; simpl; split; [lia | reflexivity]].
  rewrite (read_latest_by_read_path t s p Hc Hp) in Hr.
  assert (Hcount : keeps data_count (read_path t)).
  { unfold read_path. apply keeps_bind; [| intros _].
    - apply keeps_govern; frame_side.
    - apply keeps_select_latest; frame_side. }
  assert (Htime : keeps last_data_time (read_path t)).
  { unfold read_path. apply keeps_bind; [| intros _].
    - apply keeps_govern; frame_side.
    - apply keeps_select_latest; frame_side. }
  specialize (Hcount s). specialize (Htime s).
  unfold try_except, bind at 1 in Hr.
  destruct (read_path t s) as [[latest | e |] s1]; simpl in Hcount, Htime.
  - pose proof (process_latest_counts t (fst latest) (snd latest) s1) as [Hn Hl].
    destruct (process_latest t (fst latest) (snd latest) s1) as [[b | e |] s2];
      simpl in Hn, Hl; subst r; simpl.
    + destruct b; simpl in *;
        (split; [rewrite Hn | rewrite Hl]; rewrite ?Hcount, ?Htime; reflexivity).
    + split; [rewrite Hn | rewrite Hl]; rewrite ?Hcount, ?Htime; reflexivity.
    + split; [rewrite Hn | rewrite Hl]; rewrite ?Hcount, ?Htime; reflexivity.
  - subst r. simpl. rewrite Hcount, Htime. split; [lia | reflexivity].
  - subst r. simpl. rewrite Hcount, Htime. split; [lia | reflexivity].
Qed.

(** The packet counter and the acceptance timestamp move exactly when
    the read returns True: then the counter grows by one and the
    timestamp is the time of the read; otherwise both stay. *)
Theorem read_counts_what_it_accepts (t : Q) (s : RealTimeIMU) :
  data_count (snd (read_latest_serial_data t s)) =
    (data_count s + (if accepted (fst (read_latest_serial_data t s))
                     then 1 else 0))%nat /\
  last_data_time (snd (read_latest_serial_data t s)) =
    (if accepted (fst (read_latest_serial_data t s))
     then t else last_data_time s).
Proof. exact (read_counts t s). Qed.

(** Right after an accepted sample the marker is LIVE, as long as the
    frame is drawn less than half a second after the read. *)
Theorem accepted_sample_is_live (t now : Q) (s : RealTimeIMU) :
  accepted (fst (read_latest_serial_data t s)) = true ->
  0 < t -> now - t < 0.5 ->
  freshness now (snd (read_latest_serial_data t s)) = LIVE.
Proof.
  intros Hacc Hpos Hclose.
  destruct (read_counts t s) as [_ Hl].
  rewrite Hacc in Hl.
  unfold freshness. rewrite data_age_accepted; rewrite Hl; [| exact Hpos].
  now apply freshness_of_age_LIVE.
Qed.

Lemma tick_counts_at_most_one (t now : Q) (s : RealTimeIMU) :
  (data_count s <= data_count (snd (update_plot t now s)) <= data_count s + 1)%nat.
Proof.
  assert (Hdraw : keeps data_count
                    (bind (draw_realtime_cube now) (fun tn =>
                     bind draw_ui_panels (fun panel =>
                     ret (mkFrame (fst tn) (snd tn) panel))))).
  { apply keeps_bind; [apply keeps_draw_realtime_cube; frame_side | intros tn].
    apply keeps_bind; [apply keeps_draw_ui_panels; frame_side | intros panel].
    apply keeps_ret. }
  assert (Hrot : (data_count s <= data_count (snd (update_rotations t s))
                  <= data_count s + 1)%nat).
  { remember (update_rotations t s) as r eqn:Hr.
    unfold update_rotations, bind at 1, gets at 1 in Hr.
    destruct (live s).
    - destruct (read_counts t s) as [Hn _].
      unfold bind in Hr.
      destruct (read_latest_serial_data t s) as [[b | e |] s1];
        subst r; simpl in *; rewrite Hn; try destruct b; simpl; lia.
    - subst r. rewrite (keeps_update_demo data_count); try (intros; reflexivity).
      lia. }
  remember (update_plot t now s) as r eqn:Hr.
  unfold update_plot, bind at 1 in Hr.
  destruct (update_rotations t s) as [[u | e |] s1]; subst r; simpl in *;
    [rewrite (Hdraw s1) | |]; exact Hrot.
Qed.

(** A tick accepts at most one sample, however many lines were pending. *)
Theorem one_sample_per_tick (t now : Q) (s : RealTimeIMU) :
  (data_count s <= data_count (snd (update_plot t now s)) <= data_count s + 1)%nat.
Proof. exact (tick_counts_at_most_one t now s). Qed.

End Accepting.

Lemma three_numbers_are_accepted_witness :
  orientation (snd (process_latest (runtime := Decimal.runtime) 7
                      (Some "1.5,-2,3.25,tail") 0 initial)) = (-2, 3 # 2, 13 # 4) /\
  data_count (snd (process_latest (runtime := Decimal.runtime) 7
                     (Some "1.5,-2,3.25,tail") 0 initial)) = 1%nat.
Proof.
  destruct (three_numbers_are_accepted (runtime := Decimal.runtime) 7
              "1.5,-2,3.25,tail" 0 initial (3 # 2) (-2) (13 # 4)
              eq_refl) as (_ & Ho & Hn & _); try reflexivity.
  - vm_compute. lia.
  - split; [exact Ho | exact Hn].
Defined.

Lemma accepted_sample_is_live_witness :
  freshness 100.2
    (snd (read_latest_serial_data (runtime := Decimal.runtime) 100 two_lines)) = LIVE.
Proof.
  apply (accepted_sample_is_live (runtime := Decimal.runtime) 100 100.2 two_lines).
  - vm_compute. reflexivity.
  - lra.
  - lra.
Defined.

(** ** What a session never changes (update_plot, on_key_press) *)

Section Sessions.

Context {runtime : PyRuntime}.

(** Whatever ticks and keys follow, the connection flag, the presence of
    a port and the two settings of the periodic check stay as they were:
    a failing link is never marked disconnected, and nothing reconnects. *)
Theorem connection_is_never_revised (evs : list event) (s : RealTimeIMU) :
  serial_connected (run evs s) = serial_connected s /\
  has_port (run evs s) = has_port s /\
  buffer_clear_interval (run evs s) = buffer_clear_interval s /\
  max_buffer_size (run evs s) = max_buffer_size s.
Proof.
  repeat split; apply keeps_run; frame_side.
Qed.

(** Over a session the packet counter never goes down, and it grows by
    no more than the number of ticks. *)
Theorem samples_bounded_by_ticks (evs : list event) (s : RealTimeIMU) :
  (data_count s <= data_count (run evs s)
   <= data_count s + List.length (filter is_tick evs))%nat.
Proof.
  revert s. unfold run.
  induction evs as [| ev evs IH]; intros s; simpl; [lia |].
  specialize (IH (handle ev s)).
  destruct ev as [t now | key]; simpl in *.
  - pose proof (tick_counts_at_most_one t now s). lia.
  - rewrite (keeps_on_key_press data_count) in IH by frame_side. lia.
Qed.

Lemma keeps_buffered_buffer_size : keeps buffered buffer_size.
Proof.
  unfold buffer_size.
  apply keeps_bind; [apply keeps_gets | intros [p |]];
    [apply keeps_buffered_in_waiting | apply keeps_ret].
Qed.

Lemma keeps_buffered_draw (now : Q) :
  keeps buffered
    (bind (draw_realtime_cube now) (fun tn =>
     bind draw_ui_panels (fun panel =>
     ret (mkFrame (fst tn) (snd tn) panel)))).
Proof.
  unfold draw_realtime_cube, draw_ui_panels.
  apply keeps_bind; [| intros tn].
  - apply keeps_bind; [apply keeps_gets | intros s0].
    apply keeps_bind; [apply keeps_buffered_buffer_size | intros n].
    apply keeps_ret.
  - apply keeps_bind; [| intros panel; apply keeps_ret].
    apply keeps_bind; [apply keeps_gets | intros s0].
    apply keeps_bind; [apply keeps_buffered_buffer_size | intros n].
    apply keeps_ret.
Qed.

Lemma demo_tick_frame (t now : Q) (s : RealTimeIMU) :
  live s = false ->
  buffered (snd (update_plot t now s)) = buffered s /\
  data_count (snd (update_plot t now s)) = data_count s /\
  last_data_time (snd (update_plot t now s)) = last_data_time s /\
  demo_time (snd (update_plot t now s)) = demo_time s + 0.02 /\
  orientation (snd (update_plot t now s)) = orientation (snd (update_demo s)).
Proof.
  intros Hlive.
  remember (update_plot t now s) as r eqn:Hr.
  unfold update_plot, bind at 1, update_rotations in Hr.
  unfold bind at 1, gets at 1 in Hr. rewrite Hlive in Hr.
  change (update_demo s) with (Ret tt, snd (update_demo s)) in Hr.
  cbv beta iota in Hr.
  set (s1 := snd (update_demo s)) in *.
  pose proof (keeps_buffered_draw now s1) as Hbuf.
  assert (Hdraw : forall B (f : RealTimeIMU -> B),
            (forall p s0, f (set_serial_port p s0) = f s0) ->
            f (snd r) = f s1).
  { intros B f Hport. subst r.
    apply (keeps_bind f); [| intros tn].
    - apply keeps_draw_realtime_cube.
      intros A op. now apply keeps_on_port.
    - apply keeps_bind; [| intros panel; apply keeps_ret].
      apply keeps_draw_ui_panels.
      intros A op. now apply keeps_on_port. }
  subst r. repeat split.
  - rewrite Hbuf. reflexivity.
  - now rewrite (Hdraw _ data_count).
  - now rewrite (Hdraw _ last_data_time).
  - now rewrite (Hdraw _ demo_time).
  - now rewrite (Hdraw _ orientation).
Qed.

(** A tick outside live mode reads nothing: the pending bytes, the
    packet counter and the acceptance timestamp are as before, and the
    demo clock has moved by 0.02. *)
Theorem demo_tick_reads_nothing (t now : Q) (s : RealTimeIMU) :
  live s = false ->
  buffered (snd (update_plot t now s)) = buffered s /\
  data_count (snd (update_plot t now s)) = data_count s /\
  last_data_time (snd (update_plot t now s)) = last_data_time s /\
  demo_time (snd (update_plot t now s)) = demo_time s + 0.02 /\
  orientation (snd (update_plot t now s)) = orientation (snd (update_demo s)).
Proof. exact (demo_tick_frame t now s). Qed.

(** The reset key has no lasting effect outside live mode: the next tick
    shows the same angles as if it had not been pressed. *)
Theorem reset_is_overwritten_by_demo (t now : Q) (s : RealTimeIMU) :
  live s = false ->
  orientation (snd (on_key_press (Some "r") s)) = (0, 0, 0) /\
  orientation (snd (update_plot t now (snd (on_key_press (Some "r") s)))) =
    orientation (snd (update_plot t now s)).
Proof.
  intros Hlive. split; [reflexivity |].
  destruct (demo_tick_frame t now s Hlive) as (_ & _ & _ & _ & ->).
  destruct (demo_tick_frame t now (snd (on_key_press (Some "r") s)))
    as (_ & _ & _ & _ & ->); [exact Hlive | reflexivity].
Qed.

End Sessions.

Lemma demo_tick_reads_nothing_witness :
  buffered (snd (update_plot (runtime := Decimal.runtime) 100 100
                   (set_demo_mode true two_lines))) = buffered two_lines.
Proof.
  apply (demo_tick_reads_nothing (runtime := Decimal.runtime) 100 100
           (set_demo_mode true two_lines) eq_refl).
Defined.

Lemma reset_is_overwritten_by_demo_witness :
  orientation (snd (update_plot (runtime := Decimal.runtime) 100 100
                      (snd (on_key_press (Some "r") initial)))) =
  orientation (snd (update_plot (runtime := Decimal.runtime) 100 100 initial)).
Proof.
  apply (reset_is_overwritten_by_demo (runtime := Decimal.runtime) 100 100
           initial eq_refl).
Defined.

(** ** Reads on a failed link and on a backlog (read_latest_serial_data, lines 138-194) *)

Lemma in_waiting_dead (s : RealTimeIMU) (p : Serial) :
  serial_port s = Some p -> healthy_calls p = Some 0%nat ->
  port_in_waiting s = (Raise SerialException, s).
Proof.
  intros Hp Hh. unfold port_in_waiting.
  rewrite (on_port_some Port.in_waiting s p Hp).
  unfold Port.in_waiting, Port.io. rewrite Hh. simpl.
  now rewrite (set_serial_port_same s p Hp).
Qed.

Lemma select_latest_empty_healthy (s : RealTimeIMU) (p : Serial) :
  serial_port s = Some p -> healthy_calls p = None -> in_buffer p = [] ->
  select_latest s = (Ret (None, 0%nat), s).
Proof.
  intros Hp Hh Hbuf. unfold select_latest, bind at 1, pending_fuel, gets.
  rewrite Hp, Hbuf. simpl. unfold bind.
  rewrite (in_waiting_healthy s p Hp Hh), Hbuf. reflexivity.
Qed.

(** On a healthy link where the reset request empties the buffer, the
    flush leaves an empty buffer and the timeout as it was. *)
Lemma flush_healthy (s : RealTimeIMU) (p : Serial) :
  serial_port s = Some p -> healthy_calls p = None -> in_flight p = [] ->
  clear_serial_buffer s =
    (Ret tt, set_serial_port (Some (mkSerial [] [] (timeout p) None)) s).
Proof.
  intros Hp Hh Hfl.
  unfold clear_serial_buffer, bind at 1, gets at 1. rewrite Hp.
  unfold try_except, clear_attempt.
  unfold bind at 1, port_reset_input_buffer.
  rewrite (on_port_some Port.reset_input_buffer s p Hp).
  unfold Port.reset_input_buffer, Port.io. rewrite Hh, Hfl. simpl.
  reflexivity.
Qed.

Section ReadEdges.

Context {runtime : PyRuntime}.

Lemma dead_link_read (t : Q) (s : RealTimeIMU) (p : Serial) :
  serial_connected s = true ->
  serial_port s = Some p ->
  healthy_calls p = Some 0%nat ->
  read_latest_serial_data t s =
    (Ret false, set_stdout (stdout s ++ [MsgSerialReadError SerialException]) s).
Proof.
  intros Hc Hp Hh.
  unfold read_latest_serial_data.
  unfold bind at 1, gets at 1. unfold bind at 1, gets at 1. rewrite Hc, Hp.
  unfold try_except, bind at 1.
  destruct (governance_due t s) eqn:Hdue.
  - unfold govern, bind at 1, gets at 1. rewrite Hdue.
    unfold when at 1, bind at 1.
    rewrite (in_waiting_dead s p Hp Hh). reflexivity.
  - rewrite (govern_not_due t s Hdue).
    unfold bind at 1, select_latest, bind at 1, pending_fuel, gets. rewrite Hp.
    simpl drain_latest. unfold bind at 1.
    rewrite (in_waiting_dead s p Hp Hh). reflexivity.
Qed.

(** Once the link has failed every read returns False, reports the
    exception and changes nothing else: the pending bytes stay, and the
    time of the last check is not advanced. *)
Theorem read_on_dead_link (t : Q) (s : RealTimeIMU) (p : Serial) :
  serial_connected s = true ->
  serial_port s = Some p ->
  healthy_calls p = Some 0%nat ->
  read_latest_serial_data t s =
    (Ret false, set_stdout (stdout s ++ [MsgSerialReadError SerialException]) s).
Proof. exact (dead_link_read t s p). Qed.

(** When the periodic check is due and finds more than [max_buffer_size]
    bytes pending, the whole backlog goes, the newest line with it: the
    read returns False and the orientation is not updated in that tick. *)
Theorem backlog_is_flushed_unread (t : Q) (s : RealTimeIMU) (p : Serial) :
  serial_connected s = true ->
  serial_port s = Some p ->
  healthy_calls p = None ->
  in_flight p = [] ->
  governance_due t s = true ->
  (max_buffer_size s < List.length (in_buffer p))%nat ->
  read_latest_serial_data t s =
    (Ret false,
     set_last_buffer_clear t
       (set_stdout (stdout s ++ [MsgBufferSize (List.length (in_buffer p))])
          (set_serial_port (Some (mkSerial [] [] (timeout p) None)) s))).
Proof.
  intros Hc Hp Hh Hfl Hdue Hbig.
  unfold read_latest_serial_data.
  unfold bind at 1, gets at 1. unfold bind at 1, gets at 1. rewrite Hc, Hp.
  unfold try_except, bind at 1.
  unfold govern, bind at 1, gets at 1. rewrite Hdue.
  unfold when at 1, bind at 1.
  rewrite (in_waiting_healthy s p Hp Hh).
  unfold bind at 1, gets at 1.
  apply Nat.ltb_lt in Hbig. rewrite Hbig.
  unfold when at 1, bind at 1, bind at 1.
  rewrite (in_waiting_healthy s p Hp Hh).
  unfold bind at 1, print, modify.
  set (s1 := set_stdout (stdout s ++ [MsgBufferSize (List.length (in_buffer p))]) s).
  rewrite (flush_healthy s1 p Hp Hh Hfl).
  unfold modify.
  set (s2 := set_last_buffer_clear t
               (set_serial_port (Some (mkSerial [] [] (timeout p) None)) s1)).
  unfold bind at 1.
  rewrite (select_latest_empty_healthy s2 (mkSerial [] [] (timeout p) None)
             eq_refl eq_refl eq_refl).
  reflexivity.
Qed.

End ReadEdges.

Lemma read_on_dead_link_witness :
  read_latest_serial_data (runtime := Decimal.runtime) 100 dead_link =
    (Ret false, set_stdout [MsgSerialReadError SerialException] dead_link).
Proof.
  apply (read_on_dead_link (runtime := Decimal.runtime) 100 dead_link
           (mkSerial (wire_line "1.0,2.0,3.0") [] 0.01 (Some 0%nat))
           eq_refl eq_refl eq_refl).
Defined.

Lemma backlog_is_flushed_unread_witness :
  fst (read_latest_serial_data (runtime := Decimal.runtime) 100 backlog) = Ret false /\
  pending (snd (read_latest_serial_data (runtime := Decimal.runtime) 100 backlog))
    = 0%nat.
Proof.
  rewrite (backlog_is_flushed_unread (runtime := Decimal.runtime) 100 backlog
             (healthy_port (List.concat (repeat (wire_line "1.0,2.0,3.0") 9)))
             eq_refl eq_refl eq_refl eq_refl eq_refl).
  - split; reflexivity.
  - vm_compute. lia.
Defined.

(** ** What the drain loop consumes (read_latest_serial_data, lines 154-163) *)

Lemma serial_eta (p : Serial) :
  healthy_calls p = None ->
  mkSerial (in_buffer p) (in_flight p) (timeout p) None = p.
Proof. destruct p; simpl; intros ->; reflexivity. Qed.

(** The loop over well-formed lines at the head of the buffer: it goes
    on, with what it kept of them, on the rest of the buffer. *)
Lemma drain_latest_prefix (good : list (list byte)) :
  forall fuel latest_data packets_discarded s p rest,
    serial_port s = Some p -> healthy_calls p = None ->
    in_buffer p = on_wire good ++ rest ->
    Forall wire_ok good ->
    drain_latest (List.length good + fuel) latest_data packets_discarded s =
    drain_latest fuel
      (fst (keep_latest (map line_text good) latest_data packets_discarded))
      (snd (keep_latest (map line_text good) latest_data packets_discarded))
      (set_serial_port (Some (mkSerial rest (in_flight p) (timeout p) None)) s).
Proof.
  induction good as [| body good IH];
    intros fuel latest_data packets_discarded s p rest Hp Hh Hbuf Hok.
  - simpl in Hbuf. simpl. rewrite <- Hbuf, (serial_eta p Hh).
    now rewrite (set_serial_port_same s p Hp).
  - inversion Hok as [| ? ? [Hno Hvalid] Hok']; subst.
    assert (Hbuf' : in_buffer p = body ++ PyText.LF :: (on_wire good ++ rest)).
    { rewrite Hbuf. unfold on_wire. simpl. now rewrite <- !app_assoc. }
    change (List.length (body :: good) + fuel)%nat
      with (S (List.length good + fuel)).
    simpl drain_latest. unfold bind at 1.
    rewrite (in_waiting_healthy s p Hp Hh).
    assert (Hpos : (0 <? List.length (in_buffer p))%nat = true).
    { apply Nat.ltb_lt. rewrite Hbuf', length_app. simpl. lia. }
    rewrite Hpos.
    unfold bind at 1, try_except. unfold bind at 1.
    rewrite (read_stripped_line_healthy s p body (on_wire good ++ rest)
               Hp Hh Hbuf' Hno Hvalid).
    unfold ret at 1. cbv beta iota.
    set (p2 := mkSerial (on_wire good ++ rest) (in_flight p) (timeout p) None).
    change (map line_text (body :: good)) with (line_text body :: map line_text good).
    cbn [keep_latest].
    destruct (PyText.truthy (line_text body));
      rewrite (IH fuel _ _ (set_serial_port (Some p2) s) p2 rest
                 eq_refl eq_refl eq_refl Hok');
      reflexivity.
Qed.

Lemma drain_latest_empty (fuel : nat) latest_data packets_discarded
      (s : RealTimeIMU) (p : Serial) :
  serial_port s = Some p -> healthy_calls p = None -> in_buffer p = [] ->
  drain_latest fuel latest_data packets_discarded s =
    (Ret (latest_data, packets_discarded), s).
Proof.
  intros Hp Hh Hbuf.
  destruct fuel; simpl; unfold bind;
    rewrite (in_waiting_healthy s p Hp Hh), Hbuf; reflexivity.
Qed.

(** The whole run of the loop over well-formed lines. *)
Lemma select_latest_lines (s : RealTimeIMU) (p : Serial)
      (bodies : list (list byte)) :
  serial_port s = Some p ->
  healthy_calls p = None ->
  in_buffer p = on_wire bodies ->
  Forall wire_ok bodies ->
  select_latest s =
    (Ret (keep_latest (map line_text bodies) None 0),
     set_serial_port (Some (mkSerial [] (in_flight p) (timeout p) None)) s).
Proof.
  intros Hp Hh Hbuf Hok.
  unfold select_latest, bind, pending_fuel, gets. rewrite Hp.
  pose proof (on_wire_length bodies) as Hlen.
  replace (S (List.length (in_buffer p)))
    with (List.length bodies + S (List.length (in_buffer p) - List.length bodies))%nat
    by (rewrite Hbuf; lia).
  rewrite (drain_latest_prefix bodies _ None 0%nat s p [] Hp Hh);
    [| now rewrite app_nil_r | exact Hok].
  destruct (keep_latest (map line_text bodies) None 0) as [latest pd].
  cbn [fst snd].
  now rewrite (drain_latest_empty _ latest pd
                 (set_serial_port
                    (Some (mkSerial [] (in_flight p) (timeout p) None)) s)
                 (mkSerial [] (in_flight p) (timeout p) None)
                 eq_refl eq_refl eq_refl).
Qed.

(** A read of well-formed lines on a healthy link returns normally and
    consumes all of them, not only the newest: afterwards nothing is
    pending, and the rest of the port and of the object is untouched. *)
Theorem select_latest_empties_the_buffer (s : RealTimeIMU) (p : Serial)
        (bodies : list (list byte)) :
  serial_port s = Some p ->
  healthy_calls p = None ->
  in_buffer p = on_wire bodies ->
  Forall wire_ok bodies ->
  (exists r, fst (select_latest s) = Ret r) /\
  snd (select_latest s) =
    set_serial_port (Some (mkSerial [] (in_flight p) (timeout p) None)) s.
Proof.
  intros Hp Hh Hbuf Hok.
  rewrite (select_latest_lines s p bodies Hp Hh Hbuf Hok).
  split; [eexists |]; reflexivity.
Qed.

Lemma select_latest_empties_the_buffer_witness :
  pending (snd (select_latest (connected_to (healthy_port (on_wire four_lines)))))
    = 0%nat.
Proof.
  rewrite (proj2 (select_latest_empties_the_buffer
                    (connected_to (healthy_port (on_wire four_lines)))
                    (healthy_port (on_wire four_lines)) four_lines
                    eq_refl eq_refl eq_refl four_lines_ok)).
  reflexivity.
Defined.

Lemma read_stripped_line_garbled (s : RealTimeIMU) (p : Serial)
      (body rest : list byte) :
  serial_port s = Some p -> healthy_calls p = None ->
  in_buffer p = body ++ PyText.LF :: rest ->
  ~ In PyText.LF body ->
  PyText.utf8_valid (body ++ [PyText.LF]) = false ->
  read_stripped_line s =
    (Raise UnicodeDecodeError,
     set_serial_port (Some (mkSerial rest (in_flight p) (timeout p) None)) s).
Proof.
  intros Hp Hh Hbuf Hno Hbad.
  unfold read_stripped_line, bind, port_readline.
  rewrite (on_port_some Port.readline s p Hp).
  unfold Port.readline, Port.io. rewrite Hh, Hbuf.
  rewrite (take_line_app body rest Hno). simpl.
  unfold PyText.decode. rewrite Hbad. reflexivity.
Qed.

(** The run of the loop up to a line that is not UTF-8. *)
Lemma select_latest_until_garbled (s : RealTimeIMU) (p : Serial)
      (good : list (list byte)) (bad tail : list byte) :
  serial_port s = Some p ->
  healthy_calls p = None ->
  in_buffer p = on_wire good ++ bad ++ PyText.LF :: tail ->
  Forall wire_ok good ->
  ~ In PyText.LF bad ->
  PyText.utf8_valid (bad ++ [PyText.LF]) = false ->
  select_latest s =
    (Ret (keep_latest (map line_text good) None 0),
     set_serial_port (Some (mkSerial tail (in_flight p) (timeout p) None)) s).
Proof.
  intros Hp Hh Hbuf Hok Hno Hbad.
  unfold select_latest, bind at 1, pending_fuel, gets. rewrite Hp.
  pose proof (on_wire_length good) as Hlen.
  assert (Hsize : (List.length good < List.length (in_buffer p))%nat).
  { rewrite Hbuf, !length_app. simpl. lia. }
  replace (S (List.length (in_buffer p)))
    with (List.length good + S (List.length (in_buffer p) - List.length good))%nat
    by lia.
  rewrite (drain_latest_prefix good _ None 0%nat s p (bad ++ PyText.LF :: tail)
             Hp Hh Hbuf Hok).
  destruct (keep_latest (map line_text good) None 0) as [latest pd].
  cbn [fst snd].
  set (p2 := mkSerial (bad ++ PyText.LF :: tail) (in_flight p) (timeout p) None).
  set (s2 := set_serial_port (Some p2) s).
  simpl drain_latest. unfold bind at 1.
  rewrite (in_waiting_healthy s2 p2 eq_refl eq_refl).
  assert (Hpos : (0 <? List.length (in_buffer p2))%nat = true).
  { apply Nat.ltb_lt. simpl. rewrite length_app. simpl. lia. }
  rewrite Hpos.
  unfold bind at 1, try_except. unfold bind at 1.
  rewrite (read_stripped_line_garbled s2 p2 bad tail eq_refl eq_refl eq_refl Hno Hbad).
  reflexivity.
Qed.

(** A line that is not UTF-8 ends the read: what the read returns is
    what it would return with only the lines before the bad one pending,
    the bad line itself is consumed, and the bytes after it stay pending
    for the next tick. *)
Theorem undecodable_line_ends_the_read (s : RealTimeIMU) (p : Serial)
        (good : list (list byte)) (bad tail : list byte) :
  serial_port s = Some p ->
  healthy_calls p = None ->
  in_buffer p = on_wire good ++ bad ++ PyText.LF :: tail ->
  Forall wire_ok good ->
  ~ In PyText.LF bad ->
  PyText.utf8_valid (bad ++ [PyText.LF]) = false ->
  fst (select_latest s) =
    fst (select_latest
           (set_serial_port
              (Some (mkSerial (on_wire good) (in_flight p) (timeout p) None)) s)) /\
  snd (select_latest s) =
    set_serial_port (Some (mkSerial tail (in_flight p) (timeout p) None)) s.
Proof.
  intros Hp Hh Hbuf Hok Hno Hbad.
  rewrite (select_latest_until_garbled s p good bad tail Hp Hh Hbuf Hok Hno Hbad).
  rewrite (select_latest_lines
             (set_serial_port
                (Some (mkSerial (on_wire good) (in_flight p) (timeout p) None)) s)
             (mkSerial (on_wire good) (in_flight p) (timeout p) None) good
             eq_refl eq_refl eq_refl Hok).
  split; reflexivity.
Qed.

Lemma undecodable_line_ends_the_read_witness :
  fst (select_latest garbled_between_samples) = Ret (Some "1.0,2.0,3.0", 0%nat) /\
  buffered (snd (select_latest garbled_between_samples))
    = Some (wire_line "4.0,5.0,6.0").
Proof.
  assert (Hgood : Forall wire_ok [list_byte_of_string "1.0,2.0,3.0"]).
  { repeat constructor; try reflexivity.
    simpl. intros H. repeat (destruct H as [H | H]; [discriminate |]). exact H. }
  assert (Hno : ~ In PyText.LF [xff]).
  { simpl. intros [H | H]; [discriminate | exact H]. }
  destruct (undecodable_line_ends_the_read garbled_between_samples
              (healthy_port (wire_line "1.0,2.0,3.0" ++ [xff; PyText.LF]
                             ++ wire_line "4.0,5.0,6.0"))
              [list_byte_of_string "1.0,2.0,3.0"] [xff] (wire_line "4.0,5.0,6.0")
              eq_refl eq_refl eq_refl Hgood Hno eq_refl) as [Hfst Hsnd].
  rewrite Hfst, Hsnd. split; reflexivity.
Defined.

(** ** Construction (init_serial, lines 69-103) *)

(** [init_serial] never raises, and ends in one of two ways: connected,
    in live mode, holding the port -- whenever pyserial is there and the
    open succeeded, even if the first flush then failed -- or else in
    demo mode, not connected, without a port. *)
Theorem init_serial_outcome (available : bool) (opened : exn + Serial) :
  fst (init_serial available opened initial) = Ret tt /\
  serial_connected (snd (init_serial available opened initial))
    = available && opened_ok opened /\
  demo_mode (snd (init_serial available opened initial))
    = negb (available && opened_ok opened) /\
  has_port (snd (init_serial available opened initial))
    = available && opened_ok opened.
Proof.
  destruct available; [| repeat split].
  destruct opened as [e | p]; [repeat split |].
  remember (init_serial true (inr p) initial) as r eqn:Hr.
  unfold init_serial in Hr. cbn [negb] in Hr. cbv iota in Hr.
  unfold try_except, bind at 1, print, modify in Hr.
  unfold bind at 1 in Hr. unfold bind at 1 in Hr.
  set (s1 := set_serial_port (Some p) (set_stdout (stdout initial ++ [MsgConnecting]) initial)) in Hr.
  pose proof (clear_serial_buffer_returns s1) as Hret.
  pose proof (keeps_clear_serial_buffer demo_mode
                (fun A op => keeps_on_port demo_mode op (fun _ _ => eq_refl))
                (fun _ _ => eq_refl) s1) as Hdemo.
  pose proof (keeps_clear_serial_buffer has_port
                (fun A op => keeps_has_port_on_port op)
                (fun _ _ => eq_refl) s1) as Hport.
  destruct (clear_serial_buffer s1) as [o s2]. simpl in Hret, Hdemo, Hport.
  subst o. unfold bind in Hr. subst r. simpl.
  repeat split; assumption.
Qed.

(** ** Ticks on a failed link (update_plot, lines 328-342; draw_realtime_cube, line 284) *)

Section FailedLink.

Context {runtime : PyRuntime}.

(** With a port whose link has failed, every tick ends in the exception
    of the buffer-size read of the drawing code, in live mode (where the
    read itself has handled its own failure) and in demo mode alike. *)
Theorem tick_raises_on_dead_link (t now : Q) (s : RealTimeIMU) (p : Serial) :
  serial_port s = Some p ->
  healthy_calls p = Some 0%nat ->
  fst (update_plot t now s) = Raise SerialException.
Proof.
  intros Hp Hh.
  assert (Hrot : exists s1, update_rotations t s = (Ret tt, s1) /\
                            serial_port s1 = Some p).
  { unfold update_rotations, bind at 1, gets at 1.
    destruct (live s) eqn:Hlive.
    - unfold live in Hlive. apply andb_prop in Hlive as [Hc _].
      unfold bind. rewrite (dead_link_read t s p Hc Hp Hh).
      eexists. split; [reflexivity | exact Hp].
    - eexists. split; [reflexivity | exact Hp]. }
  destruct Hrot as (s1 & Hrun & Hp1).
  unfold update_plot, bind at 1. rewrite Hrun.
  unfold bind at 1, draw_realtime_cube, bind at 1, gets at 1.
  unfold bind at 1, buffer_size, bind at 1, gets at 1. rewrite Hp1.
  rewrite (in_waiting_dead s1 p Hp1 Hh). reflexivity.
Qed.

End FailedLink.

Lemma tick_raises_on_dead_link_witness :
  fst (update_plot (runtime := Decimal.runtime) 100 100 dead_link)
    = Raise SerialException.
Proof.
  apply (tick_raises_on_dead_link (runtime := Decimal.runtime) 100 100 dead_link
           (mkSerial (wire_line "1.0,2.0,3.0") [] 0.01 (Some 0%nat))
           eq_refl eq_refl).
Defined.
